(** * url-shortener: the short-link generator and the Redis-backed store

    A shallow embedding of the Go packages [shortener]
    (sha2560f, base58Encoded, GeneratedLink) and [store]
    (InitializeStore, SaveUrlMapping, RetrieveInitialUrl), with the
    pieces of the Go standard library, of go-redis and of
    itchyny/base58-go that those functions call.

    Go strings are [string], byte slices are [list byte], unsigned
    machine integers are [Z] with the wrap-around written out. *)

From Stdlib Require Import ZArith List String Ascii Lia.
From Stdlib.Strings Require Import Byte.
From stdpp Require Import gmap strings.

Import ListNotations.
Local Open Scope string_scope.
Local Open Scope Z_scope.

(** ** Bytes and strings *)

Module Bytes.

(** [uint8] to integer and back; the conversion to a byte keeps the low
    eight bits, as Go's [byte(x)] does. *)
Definition to_Z (b : byte) : Z := Z.of_N (Byte.to_N b).

Definition of_Z (z : Z) : byte :=
  match Byte.of_N (Z.to_N (z mod 256)) with
  | Some b => b
  | None => Byte.x00
  end.

(** [[]byte(s)] and [string(bs)]. *)
Definition of_string (s : string) : list byte := list_byte_of_string s.
Definition to_string (bs : list byte) : string := string_of_list_byte bs.

End Bytes.

(** ** crypto/sha256 (Go standard library), after sha256block.go *)

Module SHA256.

Definition mask32 : Z := 0xFFFFFFFF.
Definition u32 (x : Z) : Z := x mod 2 ^ 32.
Definition add32 (x y : Z) : Z := u32 (x + y).

(** [bits.RotateLeft32(x, -n)] for [0 < n < 32]. *)
Definition rotr (n x : Z) : Z :=
  Z.lor (Z.shiftr x n) (u32 (Z.shiftl x (32 - n))).

Definition not32 (x : Z) : Z := Z.lxor x mask32.

(** The round constants, in decimal: [_K[0]] is [0x428a2f98]. *)
Definition _K : list Z :=
  [1116352408; 1899447441; 3049323471; 3921009573;
   961987163; 1508970993; 2453635748; 2870763221;
   3624381080; 310598401; 607225278; 1426881987;
   1925078388; 2162078206; 2614888103; 3248222580;
   3835390401; 4022224774; 264347078; 604807628;
   770255983; 1249150122; 1555081692; 1996064986;
   2554220882; 2821834349; 2952996808; 3210313671;
   3336571891; 3584528711; 113926993; 338241895;
   666307205; 773529912; 1294757372; 1396182291;
   1695183700; 1986661051; 2177026350; 2456956037;
   2730485921; 2820302411; 3259730800; 3345764771;
   3516065817; 3600352804; 4094571909; 275423344;
   430227734; 506948616; 659060556; 883997877;
   958139571; 1322822218; 1537002063; 1747873779;
   1955562222; 2024104815; 2227730452; 2361852424;
   2428436474; 2756734187; 3204031479; 3329325298 ].

(** The eight chaining words [h0 .. h7]. *)
Record digest := Digest {
  h0 : Z; h1 : Z; h2 : Z; h3 : Z; h4 : Z; h5 : Z; h6 : Z; h7 : Z
}.

Definition init : digest :=
  Digest 0x6a09e667 0xbb67ae85 0x3c6ef372 0xa54ff53a
         0x510e527f 0x9b05688c 0x1f83d9ab 0x5be0cd19.

(** [w[i] = uint32(p[j])<<24 | uint32(p[j+1])<<16 | uint32(p[j+2])<<8 | uint32(p[j+3])] *)
Fixpoint load_words (n : nat) (p : list byte) : list Z :=
  match n, p with
  | S n', b0 :: b1 :: b2 :: b3 :: rest =>
      Z.lor (Z.lor (Z.lor (Z.shiftl (Bytes.to_Z b0) 24)
                          (Z.shiftl (Bytes.to_Z b1) 16))
                   (Z.shiftl (Bytes.to_Z b2) 8))
            (Bytes.to_Z b3)
      :: load_words n' rest
  | _, _ => []
  end.

(** The message schedule: [w[i] = t1 + w[i-7] + t2 + w[i-16]] for
    [16 <= i < 64]; [w] holds the words computed so far. *)
Definition schedule_step (w : list Z) : list Z :=
  let i := length w in
  let v1 := nth (i - 2) w 0 in
  let t1 := Z.lxor (Z.lxor (rotr 17 v1) (rotr 19 v1)) (Z.shiftr v1 10) in
  let v2 := nth (i - 15) w 0 in
  let t2 := Z.lxor (Z.lxor (rotr 7 v2) (rotr 18 v2)) (Z.shiftr v2 3) in
  (w ++ [add32 (add32 (add32 t1 (nth (i - 7) w 0)) t2) (nth (i - 16) w 0)])%list.

Definition schedule (p : list byte) : list Z :=
  Nat.iter 48 schedule_step (load_words 16 p).

(** One of the 64 rounds on the working variables [a .. h]. *)
Definition round (v : digest) (kw : Z * Z) : digest :=
  let '(Digest a b c d e f g h) := v in
  let '(k, w) := kw in
  let t1 :=
    add32 (add32 (add32 (add32 h
      (Z.lxor (Z.lxor (rotr 6 e) (rotr 11 e)) (rotr 25 e)))
      (Z.lxor (Z.land e f) (Z.land (not32 e) g))) k) w in
  let t2 :=
    add32 (Z.lxor (Z.lxor (rotr 2 a) (rotr 13 a)) (rotr 22 a))
          (Z.lxor (Z.lxor (Z.land a b) (Z.land a c)) (Z.land b c)) in
  Digest (add32 t1 t2) a b c (add32 d t1) e f g.

(** [blockGeneric] on one 64-byte chunk. *)
Definition block (dig : digest) (p : list byte) : digest :=
  let v := fold_left round (combine _K (schedule p)) dig in
  Digest (add32 (h0 dig) (h0 v)) (add32 (h1 dig) (h1 v))
         (add32 (h2 dig) (h2 v)) (add32 (h3 dig) (h3 v))
         (add32 (h4 dig) (h4 v)) (add32 (h5 dig) (h5 v))
         (add32 (h6 dig) (h6 v)) (add32 (h7 dig) (h7 v)).

(** [for len(p) >= chunk { ...; p = p[chunk:] }]; [n] bounds the number
    of chunks. *)
Fixpoint blocks (n : nat) (dig : digest) (p : list byte) : digest :=
  match n with
  | O => dig
  | S n' =>
      if (64 <=? length p)%nat
      then blocks n' (block dig (firstn 64 p)) (skipn 64 p)
      else dig
  end.

Definition be32 (x : Z) : list byte :=
  [ Bytes.of_Z (Z.shiftr x 24); Bytes.of_Z (Z.shiftr x 16);
    Bytes.of_Z (Z.shiftr x 8); Bytes.of_Z x ].

Definition be64 (x : Z) : list byte :=
  (be32 (Z.shiftr x 32) ++ be32 x)%list.

(** [checkSum]: a 1 bit, zero bits up to 56 bytes mod 64, then the
    length in bits as a big-endian [uint64]. *)
Definition padding (len : Z) : list byte :=
  let t := if len mod 64 <? 56 then 56 - len mod 64
           else 64 + 56 - len mod 64 in
  (Byte.x80 :: repeat Byte.x00 (Z.to_nat (t - 1))
     ++ be64 (Z.shiftl len 3 mod 2 ^ 64))%list.

Definition sum (data : list byte) : list byte :=
  let p := (data ++ padding (Z.of_nat (length data)))%list in
  let d := blocks (length p / 64)%nat init p in
  (be32 (h0 d) ++ be32 (h1 d) ++ be32 (h2 d) ++ be32 (h3 d)
     ++ be32 (h4 d) ++ be32 (h5 d) ++ be32 (h6 d) ++ be32 (h7 d))%list.

End SHA256.

(** ** math/big, strconv and fmt (Go standard library) *)

Module big.

(** [new(big.Int).SetBytes(buf)]: [buf] read as a big-endian unsigned
    integer of any length. *)
Definition SetBytes (buf : list byte) : Z :=
  fold_left (fun z b => z * 256 + Bytes.to_Z b) buf 0.

(** [x.Uint64()]: the low 64 bits of the magnitude of [x]. *)
Definition Uint64 (x : Z) : Z := Z.abs x mod 2 ^ 64.

Definition is_digit (c : byte) : bool :=
  (48 <=? Bytes.to_Z c) && (Bytes.to_Z c <=? 57).

Fixpoint scan_digits (acc : Z) (src : list byte) : option Z :=
  match src with
  | [] => Some acc
  | c :: rest =>
      if is_digit c then scan_digits (acc * 10 + (Bytes.to_Z c - 48)) rest
      else None
  end.

(** [new(big.Int).SetString(s, 10)]: an optional sign, then at least one
    decimal digit, and nothing after the digits. *)
Definition SetString10 (src : list byte) : option Z :=
  match src with
  | [] => None
  | c :: rest =>
      if Bytes.to_Z c =? 43 then
        match rest with [] => None | _ => scan_digits 0 rest end
      else if Bytes.to_Z c =? 45 then
        match rest with [] => None | _ => Z.opp <$> scan_digits 0 rest end
      else scan_digits 0 src
  end.

End big.

Module fmt.

(** The digit loop of [strconv.FormatUint(u, 10)]:
    [for us >= 10 { q := us / 10; a[i] = byte(us - q*10 + '0'); us = q }]
    and then the leading digit; [fuel] bounds the iterations. *)
Fixpoint formatBits (fuel : nat) (us : Z) (a : list byte) : list byte :=
  match fuel with
  | O => Bytes.of_Z (us + 48) :: a
  | S fuel' =>
      if 10 <=? us
      then formatBits fuel' (us / 10) (Bytes.of_Z (us - us / 10 * 10 + 48) :: a)
      else Bytes.of_Z (us + 48) :: a
  end.

(** [fmt.Sprintf("%d", n)] for [n : uint64]: at most 20 digits. *)
Definition Sprintf_d (n : Z) : string :=
  Bytes.to_string (formatBits 19 n []).

End fmt.

(** ** github.com/itchyny/base58-go

    The imported encoder. [Encode] reads its argument as a number written
    in base 10 and returns that number written in base 58, one output
    character per leading [0] of the input first. *)

Module base58.

Inductive encode_error :=
| NotANumber (src : list byte)
| Negative (n : Z).

Definition BitcoinEncoding : list byte :=
  Bytes.of_string "123456789ABCDEFGHJKLMNPQRSTUVWXYZabcdefghijkmnopqrstuvwxyz".

Definition symbol (alphabet : list byte) (i : Z) : byte :=
  nth (Z.to_nat i) alphabet Byte.x00.

(** [for _, c := range src { if c == '0' { append alphabet[0] } else { break } }] *)
Fixpoint zero_prefix (alphabet : list byte) (src : list byte) : list byte :=
  match src with
  | c :: rest =>
      if Bytes.to_Z c =? 48 then symbol alphabet 0 :: zero_prefix alphabet rest
      else []
  | [] => []
  end.

(** [for n > 0 { n.DivMod(n, 58, mod); append alphabet[mod] }]: the
    digits least significant first; [fuel] bounds the iterations. *)
Fixpoint divmod_loop (alphabet : list byte) (fuel : nat) (n : Z) : list byte :=
  match fuel with
  | O => []
  | S fuel' =>
      if 0 <? n
      then symbol alphabet (n mod 58) :: divmod_loop alphabet fuel' (n / 58)
      else []
  end.

(** Enough iterations for [n]: one per binary digit. *)
Definition fuel_for (n : Z) : nat := S (Z.to_nat (Z.log2 n)).

Definition Encode (alphabet : list byte) (src : list byte)
  : list byte * option encode_error :=
  match src with
  | [] => ([], None)
  | _ =>
      match big.SetString10 src with
      | None => ([], Some (NotANumber src))
      | Some n =>
          if n <? 0 then ([], Some (Negative n))
          else ((zero_prefix alphabet src
                  ++ rev (divmod_loop alphabet (fuel_for n) n))%list, None)
      end
  end.

End base58.

(** ** Redis and the go-redis client *)

Module redis.

Record Options := { Addr : string; Password : string; DB : Z }.

(** A client handle; [NewClient] opens no connection by itself. *)
Record Client := NewClient { opt : Options }.

(** A stored string with the instant at which it expires, if any. *)
Record Entry := { value : string; deadline : option Z }.

(** The server as the process sees it: [fault = Some msg] when commands
    cannot reach it and fail with the network error [msg]; the keyspace
    of database 0; the server clock in nanoseconds. *)
Record Server := {
  fault : option string;
  keys : gmap string Entry;
  clock : Z
}.

(** [redis.Nil] (the reply for a missing key) or a network error. *)
Inductive error :=
| Nil
| Network (msg : string).

Definition Error (e : error) : string :=
  match e with
  | Nil => "redis: nil"
  | Network msg => msg
  end.

Definition KeepTTL : Z := -1.

(** A key is gone once the clock is past its deadline. *)
Definition live (now : Z) (e : Entry) : bool :=
  match deadline e with
  | None => true
  | Some t => now <=? t
  end.

Definition lookup_live (key : string) (s : Server) : option Entry :=
  match keys s !! key with
  | Some e => if live (clock s) e then Some e else None
  | None => None
  end.

(** [c.Ping(ctx).Result()] *)
Definition Ping (c : Client) (s : Server) : string * option error :=
  match fault s with
  | Some msg => ("", Some (Network msg))
  | None => ("PONG", None)
  end.

(** [c.Set(ctx, key, value, expiration).Err()]: [SET key value] with
    [EX]/[PX] for a positive expiration, [KEEPTTL] for [KeepTTL], and no
    expiry otherwise. *)
Definition Set_ (c : Client) (key val : string) (expiration : Z) (s : Server)
  : option error * Server :=
  match fault s with
  | Some msg => (Some (Network msg), s)
  | None =>
      let d :=
        if 0 <? expiration then Some (clock s + expiration)
        else if expiration =? KeepTTL
             then match lookup_live key s with
                  | Some e => deadline e
                  | None => None
                  end
             else None in
      (None, {| fault := fault s;
                keys := <[key := {| value := val; deadline := d |}]> (keys s);
                clock := clock s |})
  end.

(** [c.Get(ctx, key).Result()] *)
Definition Get (c : Client) (key : string) (s : Server) : string * option error :=
  match fault s with
  | Some msg => ("", Some (Network msg))
  | None =>
      match lookup_live key s with
      | Some e => (value e, None)
      | None => ("", Some Nil)
      end
  end.

(** Time passing on the server. *)
Definition advance (d : Z) (s : Server) : Server :=
  {| fault := fault s; keys := keys s; clock := clock s + d |}.

End redis.

(** ** The process: its globals, its surroundings and the outcome of a call *)

(** [type StorageService struct { redisClient *redis.Client }]; a nil
    pointer is [None]. *)
Record StorageService := { redisClient : option redis.Client }.

(** What the process writes to its standard output: a text, or the line
    of [fmt.Println(err.Error())] for an error [err] of the encoder,
    whose wording is the library's own and is not spelled out here. *)
Inductive printed :=
| Text (s : string)
| ErrorLine (e : base58.encode_error).

Record World := {
  server : redis.Server;            (* the Redis at localhost:6379 *)
  stdout : list printed;            (* what the process has printed *)
  storeService : StorageService     (* the package-level [storeService] *)
}.

Inductive runtime_error :=
| NilDereference
| SliceBoundsOutOfRange (hi len : nat).

Inductive Outcome (A : Type) :=
| Returned (a : A)
| Panicked (v : string)
| RuntimePanic (e : runtime_error)
| Exited (code : Z).

Arguments Returned {A} a.
Arguments Panicked {A} v.
Arguments RuntimePanic {A} e.
Arguments Exited {A} code.

Definition Go (A : Type) : Type := World -> Outcome A * World.

Definition go_return {A} (a : A) : Go A := fun w => (Returned a, w).

Definition go_bind {A B} (m : Go A) (k : A -> Go B) : Go B :=
  fun w =>
    match m w with
    | (Returned a, w') => k a w'
    | (Panicked v, w') => (Panicked v, w')
    | (RuntimePanic e, w') => (RuntimePanic e, w')
    | (Exited c, w') => (Exited c, w')
    end.

Notation "'let!' x ':=' m 'in' k" := (go_bind m (fun x => k))
  (at level 10, x pattern, m at level 100, k at level 200).
Notation "'run!' m 'in' k" := (go_bind m (fun _ => k))
  (at level 10, m at level 100, k at level 200).

Definition panic {A} (v : string) : Go A := fun w => (Panicked v, w).
Definition os_Exit {A} (code : Z) : Go A := fun w => (Exited code, w).

(** [fmt.Println(s)] and [fmt.Printf] once formatted. *)
Definition print (s : printed) : Go unit :=
  fun w => (Returned tt,
            {| server := server w; stdout := (stdout w ++ [s])%list;
               storeService := storeService w |}).

Definition newline : string := String (ascii_of_nat 10) EmptyString.

(** [p.f] through a pointer: a nil [p] is a run-time panic. *)
Definition deref {A} (p : option A) : Go A :=
  fun w => match p with
           | Some a => (Returned a, w)
           | None => (RuntimePanic NilDereference, w)
           end.

(** [s[:hi]] on a string. *)
Definition slice_to (s : string) (hi : nat) : Go string :=
  fun w => if (hi <=? String.length s)%nat
           then (Returned (substring 0 hi s), w)
           else (RuntimePanic (SliceBoundsOutOfRange hi (String.length s)), w).

(** A command sent to the server. *)
Definition on_server {A} (cmd : redis.Server -> A * redis.Server) : Go A :=
  fun w => let '(a, s') := cmd (server w) in
           (Returned a, {| server := s'; stdout := stdout w;
                           storeService := storeService w |}).

(** ** package shortener *)

Module shortener.

Definition sha2560f (input : string) : list byte :=
  SHA256.sum (Bytes.of_string input).

Definition base58Encoded (bytes : list byte) : Go string :=
  let '(encoded, err) := base58.Encode base58.BitcoinEncoding bytes in
  match err with
  | Some e => run! print (ErrorLine e) in os_Exit 1
  | None => go_return (Bytes.to_string encoded)
  end.

(** The call [sha256(initialLink + userId)] is to [sha2560f], the only
    hash function of the package. *)
Definition GeneratedLink (initialLink userId : string) : Go string :=
  let urlHashBytes := sha2560f (initialLink +:+ userId) in
  let generatedNumber := big.Uint64 (big.SetBytes urlHashBytes) in
  let! finalString :=
    base58Encoded (Bytes.of_string (fmt.Sprintf_d generatedNumber)) in
  slice_to finalString 8.

End shortener.

(** ** package store *)

Module time.
(** [time.Duration] counts nanoseconds. *)
Definition Nanosecond : Z := 1.
Definition Second : Z := 1000000000 * Nanosecond.
Definition Hour : Z := 3600 * Second.
End time.

Module store.

Definition CacheDuration : Z := 6 * time.Hour.

(** Reading and writing the field of the package-level [storeService]. *)
Definition load_redisClient : Go (option redis.Client) :=
  fun w => (Returned (redisClient (storeService w)), w).

Definition store_redisClient (c : option redis.Client) : Go unit :=
  fun w => (Returned tt,
            {| server := server w; stdout := stdout w;
               storeService := {| redisClient := c |} |}).

(** The returned pointer is [storeService] itself; the embedding hands
    back the struct it points to. *)
Definition InitializeStore : Go StorageService :=
  let redisClient :=
    redis.NewClient {| redis.Addr := "localhost:6379";
                       redis.Password := "";
                       redis.DB := 0 |} in
  let! (pong, err) := on_server (fun s => (redis.Ping redisClient s, s)) in
  match err with
  | Some e => panic ("Error init Redis " +:+ redis.Error e +:+ ":")
  | None =>
      run! print (Text (newline +:+ "Redis started successfully: pong message = {"
                          +:+ pong +:+ "}")) in
      run! store_redisClient (Some redisClient) in
      fun w => (Returned (storeService w), w)
  end.

Definition SaveUrlMapping (shortUrl originalUrl userId : string) : Go unit :=
  let! handle := load_redisClient in
  let! client := deref handle in
  let! err := on_server (redis.Set_ client shortUrl originalUrl CacheDuration) in
  match err with
  | Some e => panic ("failed saving key url | Error " +:+ redis.Error e +:+ ":")
  | None => go_return tt
  end.

Definition RetrieveInitialUrl (shortUrl : string) : Go string :=
  let! handle := load_redisClient in
  let! client := deref handle in
  let! (result, err) := on_server (fun s => (redis.Get client shortUrl s, s)) in
  match err with
  | Some e => panic ("failed RetrieveInitialUrl url | Error : " +:+ redis.Error e)
  | None => go_return result
  end.

End store.

(** Time passing between two calls. *)
Definition elapse (d : Z) (w : World) : World :=
  {| server := redis.advance d (server w); stdout := stdout w;
     storeService := storeService w |}.

(** The process at start-up: [storeService = &StorageService{}], nothing
    printed; the Redis it will talk to is [s]. *)
Definition boot (s : redis.Server) : World :=
  {| server := s; stdout := []; storeService := {| redisClient := None |} |}.

Definition empty_server : redis.Server :=
  {| redis.fault := None; redis.keys := ∅; redis.clock := 0 |}.

Definition unreachable_server : redis.Server :=
  {| redis.fault := Some "dial tcp 127.0.0.1:6379: connect: connection refused";
     redis.keys := ∅; redis.clock := 0 |}.

(** ** The code generator in the specification's words *)

Module Spec.

(** The trailing [n] bytes of a byte string. *)
Definition trailing (n : nat) (bs : list byte) : list byte :=
  skipn (length bs - n) bs.

(** A byte string as an unsigned big-endian number: the first byte is
    the most significant. *)
Fixpoint big_endian (bs : list byte) : Z :=
  match bs with
  | [] => 0
  | b :: rest => Bytes.to_Z b * 256 ^ Z.of_nat (length rest) + big_endian rest
  end.

Definition number (longUrl ownerId : string) : Z :=
  big_endian (trailing 8 (SHA256.sum (Bytes.of_string (longUrl +:+ ownerId)))).

(** The base-58 encoding of the decimal rendering. *)
Definition encoded (longUrl ownerId : string) : string :=
  Bytes.to_string
    (fst (base58.Encode base58.BitcoinEncoding
            (Bytes.of_string (fmt.Sprintf_d (number longUrl ownerId))))).

(** Its first 8 characters (all of them when there are fewer). *)
Definition generate (longUrl ownerId : string) : string :=
  substring 0 8 (encoded longUrl ownerId).

End Spec.

(** ** States of the store, test data and the steps of a run *)

Definition initialized (w : World) : bool :=
  match redisClient (storeService w) with
  | Some _ => true
  | None => false
  end.

Definition reachable (w : World) : bool :=
  match redis.fault (server w) with
  | Some _ => false
  | None => true
  end.

(** The world after a successful [SET code url EX 21600]. *)
Definition written (code url : string) (w : World) : World :=
  {| server :=
       {| redis.fault := None;
          redis.keys :=
            <[code := {| redis.value := url;
                         redis.deadline :=
                           Some (redis.clock (server w) + store.CacheDuration) |}]>
              (redis.keys (server w));
          redis.clock := redis.clock (server w) |};
     stdout := stdout w;
     storeService := storeService w |}.

(** The process right after a successful [InitializeStore] against an
    empty Redis. *)
Definition ready_world : World := snd (store.InitializeStore (boot empty_server)).

(** A key that is absent, or whose deadline the clock has passed. *)
Definition missing (code : string) (s : redis.Server) : Prop :=
  redis.keys s !! code = None
  \/ exists e t, redis.keys s !! code = Some e
                 /\ redis.deadline e = Some t /\ t < redis.clock s.

Definition guru3d : string :=
  "https://www.guru3d.com/news-story/spotted-ryzen-threadripper-pro-3995wx-processor-with-8-channel-ddr4,2.html".
Definition UserId : string := "e0dba740-fc4b-4977-872c-d360239e6b1a".

(** An input whose digest ends in [00 00 00 fa 2b c9 4f 55]: the derived
    integer is 1074476437333, below [58 ^ 7]. *)
Definition short_link : string := "https://example.com/431459".
Definition short_user : string := "u".

(** What can happen between two calls into the packages: a call of one
    of the exported functions other than [InitializeStore], time passing,
    or the Redis server becoming unreachable or reachable again. *)
Inductive step : World -> World -> Prop :=
| step_put (shortUrl originalUrl userId : string) (w : World) :
    step w (snd (store.SaveUrlMapping shortUrl originalUrl userId w))
| step_get (shortUrl : string) (w : World) :
    step w (snd (store.RetrieveInitialUrl shortUrl w))
| step_generate (initialLink userId : string) (w : World) :
    step w (snd (shortener.GeneratedLink initialLink userId w))
| step_elapse (d : Z) (w : World) :
    0 <= d -> step w (elapse d w)
| step_fault (f : option string) (w : World) :
    step w {| server := {| redis.fault := f;
                           redis.keys := redis.keys (server w);
                           redis.clock := redis.clock (server w) |};
              stdout := stdout w; storeService := storeService w |}.

(** The reading of C3 that fails: on a lookup miss the call comes back to
    its caller with a value. *)
Definition get_returns_on_miss : Prop :=
  forall (code : string) (w : World),
    initialized w = true -> reachable w = true ->
    missing code (server w) ->
    exists r, fst (store.RetrieveInitialUrl code w) = Returned r.

(** ** package handler, and what it uses of gin *)

Module gin.

(** What a handler hands to [c.Render]: [c.JSON(code, obj)] is
    [c.Render(code, render.JSON{Data: obj})], here with string members,
    and [c.Redirect(code, location)] is
    [c.Render(-1, render.Redirect{Code: code, Location: location})].
    The value is the call with its arguments. Turning it into bytes on
    the connection is gin's and net/http's work and is not modelled: for
    a redirect, net/http resolves a location without scheme against the
    request path and escapes non-ASCII bytes before it sets the
    [Location] header. *)
Inductive Render :=
| JSON (code : Z) (obj : gmap string string)
| Redirect (code : Z) (location : string).

(** [c.Param(key)]: the value of the first path parameter named [key],
    the empty string when there is none. *)
Fixpoint Param (key : string) (ps : list (string * string)) : string :=
  match ps with
  | [] => ""
  | (k, v) :: rest => if String.eqb k key then v else Param key rest
  end.

End gin.

Module http.
Definition StatusOK : Z := 200.
Definition StatusBadRequest : Z := 400.
End http.

Module handler.

Record UrlCreationRequest := { LongUrl : string; UserId : string }.

(** The part of [*gin.Context] the handlers touch: what
    [c.ShouldBindJSON(&creationRequest)] gives on the request body (the
    text of its error, or the bound struct; decoding and the [required]
    validation are gin's), the path parameters, and the last value
    handed to [c.Render]. *)
Record Context := {
  ShouldBindJSON : string + UrlCreationRequest;
  Params : list (string * string);
  rendered : option gin.Render
}.

Definition Render (r : gin.Render) (c : Context) : Context :=
  {| ShouldBindJSON := ShouldBindJSON c; Params := Params c;
     rendered := Some r |}.

(** The call [shortener.GeneratedShortLink] is to [GeneratedLink], the
    only generator of the package. *)
Definition CreateShortUrl (c : Context) : Go Context :=
  match ShouldBindJSON c with
  | inl err =>
      go_return (Render (gin.JSON http.StatusBadRequest {["error" := err]}) c)
  | inr creationRequest =>
      let! shortUrl :=
        shortener.GeneratedLink (LongUrl creationRequest) (UserId creationRequest) in
      run! store.SaveUrlMapping shortUrl (LongUrl creationRequest)
             (UserId creationRequest) in
      let host := "http://localhost:9808/" in
      go_return
        (Render (gin.JSON 200
                  (<["message" := "short url created successfully"]>
                     {["short_url" := host +:+ shortUrl]})) c)
  end.

Definition HandleShortUrlRedirects (c : Context) : Go Context :=
  let shortUrl := gin.Param "shortUrl" (Params c) in
  let! initialUrl := store.RetrieveInitialUrl shortUrl in
  go_return (Render (gin.Redirect 302 initialUrl) c).

End handler.

(** A request for [POST /create-short-url] whose body bound to the two
    fields, and a request for [GET /:shortUrl]. *)
Definition creation_request (longUrl userId : string) : handler.Context :=
  {| handler.ShouldBindJSON :=
       inr {| handler.LongUrl := longUrl; handler.UserId := userId |};
     handler.Params := []; handler.rendered := None |}.

Definition redirect_request (code : string) : handler.Context :=
  {| handler.ShouldBindJSON := inl "EOF";
     handler.Params := [("shortUrl", code)]; handler.rendered := None |}.

(** ** The store's test file *)

Module store_test.

(** [func init() { testStoreService = InitializeStore() }] followed by
    the body of [TestInsertionAndRetrieval]; the result is the pair that
    [assert.Equal] compares. *)
Definition TestInsertionAndRetrieval : Go (string * string) :=
  let! testStoreService := store.InitializeStore in
  let initialLink :=
    "https://www.guru3d.com/news-story/spotted-ryzen-threadripper-pro-3995wx-processor-with-8-channel-ddr4,2.html" in
  let userUUId := "e0dba740-fc4b-4977-872c-d360239e6b1a" in
  let shortUrl := "Jsz4k57oAX" in
  run! store.SaveUrlMapping shortUrl initialLink userUUId in
  let! retrievedUrl := store.RetrieveInitialUrl shortUrl in
  go_return (initialLink, retrievedUrl).

End store_test.

(** Steps of a run that do not write at [code]: a [SaveUrlMapping] of
    another code, any [RetrieveInitialUrl] or [GeneratedLink], time
    passing, the server becoming unreachable or reachable. *)
Inductive undisturbed (code : string) : World -> World -> Prop :=
| und_put (shortUrl originalUrl userId : string) (w : World) :
    shortUrl <> code ->
    undisturbed code w (snd (store.SaveUrlMapping shortUrl originalUrl userId w))
| und_get (shortUrl : string) (w : World) :
    undisturbed code w (snd (store.RetrieveInitialUrl shortUrl w))
| und_generate (initialLink userId : string) (w : World) :
    undisturbed code w (snd (shortener.GeneratedLink initialLink userId w))
| und_elapse (d : Z) (w : World) :
    0 <= d -> undisturbed code w (elapse d w)
| und_fault (f : option string) (w : World) :
    undisturbed code w
      {| server := {| redis.fault := f;
                      redis.keys := redis.keys (server w);
                      redis.clock := redis.clock (server w) |};
         stdout := stdout w; storeService := storeService w |}.

(** The text of the network error of an unreachable server. *)
Definition fault_text (w : World) : string :=
  match redis.fault (server w) with
  | Some msg => msg
  | None => ""
  end.

(** Reading a base-58 numeral back: the position of a symbol in the
    alphabet, and the number a string of symbols denotes, most
    significant first. *)
Fixpoint index_of (b : byte) (alphabet : list byte) : option Z :=
  match alphabet with
  | [] => None
  | a :: rest =>
      if Byte.eqb a b then Some 0
      else match index_of b rest with
           | Some i => Some (i + 1)
           | None => None
           end
  end.

Definition numeral_value (alphabet : list byte) (bs : list byte) : option Z :=
  fold_left (fun acc b =>
               match acc, index_of b alphabet with
               | Some a, Some i => Some (a * 58 + i)
               | _, _ => None
               end) bs (Some 0).


(** * Properties *)

(** ** Bytes *)

Lemma to_Z_range (b : byte) : 0 <= Bytes.to_Z b < 256.
Proof.
  unfold Bytes.to_Z. pose proof (Byte.to_N_bounded b) as H.
  lia.
Qed.

Lemma to_Z_of_Z (z : Z) : 0 <= z < 256 -> Bytes.to_Z (Bytes.of_Z z) = z.
Proof.
  intros Hz. unfold Bytes.of_Z, Bytes.to_Z.
  rewrite Z.mod_small by lia.
  destruct (Byte.of_N (Z.to_N z)) as [b|] eqn:E.
  - apply Byte.to_of_N in E. rewrite E. lia.
  - apply Byte.of_N_None_iff in E. lia.
Qed.

Lemma of_to_string (bs : list byte) : Bytes.of_string (Bytes.to_string bs) = bs.
Proof. apply list_byte_of_string_of_list_byte. Qed.

(** ** The integer derived from the digest *)

Lemma SetBytes_fold (bs : list byte) (acc : Z) :
  fold_left (fun z b => z * 256 + Bytes.to_Z b) bs acc
  = acc * 256 ^ Z.of_nat (length bs) + Spec.big_endian bs.
Proof.
  revert acc. induction bs as [|b bs IH]; intros acc; cbn [fold_left Spec.big_endian length].
  - cbn. lia.
  - rewrite IH. rewrite Nat2Z.inj_succ, Z.pow_succ_r by lia. ring.
Qed.

(** [SetBytes] reads big-endian. *)
Lemma SetBytes_big_endian (bs : list byte) : big.SetBytes bs = Spec.big_endian bs.
Proof. unfold big.SetBytes. rewrite SetBytes_fold. lia. Qed.

Lemma big_endian_app (hi lo : list byte) :
  Spec.big_endian (hi ++ lo)
  = Spec.big_endian hi * 256 ^ Z.of_nat (length lo) + Spec.big_endian lo.
Proof.
  induction hi as [|b hi IH]; cbn [app Spec.big_endian].
  - lia.
  - rewrite IH, length_app, Nat2Z.inj_add, Z.pow_add_r by lia. ring.
Qed.

Lemma big_endian_range (bs : list byte) :
  0 <= Spec.big_endian bs < 256 ^ Z.of_nat (length bs).
Proof.
  induction bs as [|b bs IH]; cbn [Spec.big_endian length].
  - cbn. lia.
  - pose proof (to_Z_range b). rewrite Nat2Z.inj_succ, Z.pow_succ_r by lia. nia.
Qed.

Lemma trailing_length (n : nat) (bs : list byte) :
  length (Spec.trailing n bs) = Nat.min n (length bs).
Proof. unfold Spec.trailing. rewrite length_skipn. lia. Qed.

(** Keeping the low 64 bits of the whole digest is reading its last eight
    bytes, whatever the length of the digest. *)
Lemma Uint64_SetBytes_trailing (bs : list byte) :
  big.Uint64 (big.SetBytes bs) = Spec.big_endian (Spec.trailing 8 bs).
Proof.
  rewrite SetBytes_big_endian. unfold big.Uint64.
  pose proof (big_endian_range bs) as Hr.
  rewrite Z.abs_eq by lia.
  pose proof (big_endian_range (Spec.trailing 8 bs)) as Ht.
  pose proof (trailing_length 8 bs) as Hl.
  rewrite <- (firstn_skipn (length bs - 8) bs) at 1.
  fold (Spec.trailing 8 bs). rewrite big_endian_app.
  destruct (Nat.le_gt_cases 8 (length bs)) as [Hge|Hlt].
  - rewrite Nat.min_l in Hl by lia. rewrite Hl in *.
    change (256 ^ Z.of_nat 8) with (2 ^ 64) in *.
    rewrite Z.add_comm, Z.mod_add by lia. apply Z.mod_small. lia.
  - replace (length bs - 8)%nat with 0%nat by lia. cbn [firstn Spec.big_endian].
    rewrite Z.mul_0_l, Z.add_0_l. apply Z.mod_small.
    split; [lia|]. eapply Z.lt_le_trans; [apply Ht|].
    rewrite Hl. change (2 ^ 64) with (256 ^ 8).
    apply Z.pow_le_mono_r; lia.
Qed.

(** ** The decimal rendering is read back by the encoder *)

Lemma digit_byte (d : Z) :
  0 <= d < 10 ->
  big.is_digit (Bytes.of_Z (d + 48)) = true
  /\ Bytes.to_Z (Bytes.of_Z (d + 48)) - 48 = d.
Proof.
  intros Hd. unfold big.is_digit. rewrite to_Z_of_Z by lia.
  split; [|lia].
  apply andb_true_intro; split; apply Z.leb_le; lia.
Qed.

Lemma scan_digit (acc d : Z) (rest : list byte) :
  0 <= d < 10 ->
  big.scan_digits acc (Bytes.of_Z (d + 48) :: rest)
  = big.scan_digits (acc * 10 + d) rest.
Proof.
  intros Hd. destruct (digit_byte d Hd) as [Hdig Hval].
  cbn [big.scan_digits]. now rewrite Hdig, Hval.
Qed.

(** Scanning what [formatBits] wrote in front of [a] shifts the
    accumulator by the number of digits written and adds [us]. *)
Lemma formatBits_scan (fuel : nat) :
  forall (us : Z) (a : list byte),
    0 <= us < 10 ^ (Z.of_nat fuel + 1) ->
    exists k, 0 <= k /\
      forall acc, big.scan_digits acc (fmt.formatBits fuel us a)
                  = big.scan_digits (acc * 10 ^ k + us) a.
Proof.
  induction fuel as [|fuel IH]; intros us a Hus.
  - exists 1. split; [lia|]. intros acc. cbn [fmt.formatBits].
    change (10 ^ (Z.of_nat 0 + 1)) with 10 in Hus.
    rewrite scan_digit by lia. f_equal.
  - cbn [fmt.formatBits]. destruct (10 <=? us) eqn:E.
    + apply Z.leb_le in E.
      assert (Hq : 0 <= us / 10 < 10 ^ (Z.of_nat fuel + 1)).
      { split; [apply Z.div_pos; lia|].
        apply Z.div_lt_upper_bound; [lia|].
        rewrite <- Z.pow_succ_r by lia.
        replace (Z.succ (Z.of_nat fuel + 1)) with (Z.of_nat (S fuel) + 1) by lia.
        lia. }
      destruct (IH (us / 10) (Bytes.of_Z (us - us / 10 * 10 + 48) :: a) Hq)
        as (k & Hk & Hscan).
      exists (k + 1). split; [lia|]. intros acc.
      rewrite Hscan.
      pose proof (Z.mod_pos_bound us 10 ltac:(lia)) as Hm.
      pose proof (Z.div_mod us 10 ltac:(lia)) as Hdm.
      rewrite scan_digit by lia. f_equal.
      rewrite Z.pow_add_r by lia. ring.
    + apply Z.leb_gt in E. exists 1. split; [lia|]. intros acc.
      rewrite scan_digit by lia. f_equal.
Qed.

(** The rendering starts with a digit, never with a sign. *)
Lemma formatBits_head (fuel : nat) :
  forall (us : Z) (a : list byte),
    0 <= us < 10 ^ (Z.of_nat fuel + 1) ->
    exists c rest, fmt.formatBits fuel us a = c :: rest /\ big.is_digit c = true.
Proof.
  induction fuel as [|fuel IH]; intros us a Hus.
  - change (10 ^ (Z.of_nat 0 + 1)) with 10 in Hus. cbn [fmt.formatBits].
    eexists _, _. split; [reflexivity|]. apply digit_byte. lia.
  - cbn [fmt.formatBits]. destruct (10 <=? us) eqn:E.
    + apply Z.leb_le in E. apply IH.
      split; [apply Z.div_pos; lia|].
      apply Z.div_lt_upper_bound; [lia|].
      rewrite <- Z.pow_succ_r by lia.
      replace (Z.succ (Z.of_nat fuel + 1)) with (Z.of_nat (S fuel) + 1) by lia.
      lia.
    + apply Z.leb_gt in E.
      eexists _, _. split; [reflexivity|]. apply digit_byte. lia.
Qed.

Lemma SetString10_digits (c : byte) (rest : list byte) :
  big.is_digit c = true ->
  big.SetString10 (c :: rest) = big.scan_digits 0 (c :: rest).
Proof.
  intros Hc. unfold big.is_digit in Hc.
  apply andb_prop in Hc as [Hlo _]. apply Z.leb_le in Hlo.
  unfold big.SetString10.
  destruct (Bytes.to_Z c =? 43) eqn:E1; [apply Z.eqb_eq in E1; lia|].
  destruct (Bytes.to_Z c =? 45) eqn:E2; [apply Z.eqb_eq in E2; lia|].
  reflexivity.
Qed.

(** [SetString] after [Sprintf("%d", n)] gives [n] back, for every
    [uint64] (and up to 20 digits). *)
Lemma SetString10_Sprintf (n : Z) :
  0 <= n < 10 ^ 20 ->
  big.SetString10 (Bytes.of_string (fmt.Sprintf_d n)) = Some n.
Proof.
  intros Hn. unfold fmt.Sprintf_d. rewrite of_to_string.
  assert (Hb : 0 <= n < 10 ^ (Z.of_nat 19 + 1)) by (cbn; lia).
  destruct (formatBits_head 19 n [] Hb) as (c & rest & Heq & Hc).
  destruct (formatBits_scan 19 n [] Hb) as (k & _ & Hscan).
  rewrite Heq, SetString10_digits by exact Hc.
  rewrite <- Heq, Hscan. cbn [big.scan_digits]. f_equal; lia.
Qed.

Lemma Sprintf_nonempty (n : Z) :
  0 <= n < 10 ^ 20 ->
  exists c rest, Bytes.of_string (fmt.Sprintf_d n) = c :: rest.
Proof.
  intros Hn. unfold fmt.Sprintf_d. rewrite of_to_string.
  assert (Hb : 0 <= n < 10 ^ (Z.of_nat 19 + 1)) by (cbn; lia).
  destruct (formatBits_head 19 n [] Hb) as (c & rest & Heq & _). eauto.
Qed.

(** The encoder never fails on a rendered [uint64]. *)
Lemma Encode_Sprintf (alphabet : list byte) (n : Z) :
  0 <= n < 10 ^ 20 ->
  snd (base58.Encode alphabet (Bytes.of_string (fmt.Sprintf_d n))) = None.
Proof.
  intros Hn. destruct (Sprintf_nonempty n Hn) as (c & rest & Heq).
  pose proof (SetString10_Sprintf n Hn) as Hs.
  unfold base58.Encode. rewrite Heq in *. rewrite Hs.
  destruct (n <? 0) eqn:E; [apply Z.ltb_lt in E; lia|]. reflexivity.
Qed.

Lemma Uint64_range (x : Z) : 0 <= big.Uint64 x < 2 ^ 64.
Proof. unfold big.Uint64. apply Z.mod_pos_bound. lia. Qed.

(** So [base58Encoded] returns, printing nothing, on every rendered
    [uint64]. *)
Lemma base58Encoded_Sprintf (n : Z) (w : World) :
  0 <= n < 10 ^ 20 ->
  shortener.base58Encoded (Bytes.of_string (fmt.Sprintf_d n)) w
  = (Returned (Bytes.to_string
                 (fst (base58.Encode base58.BitcoinEncoding
                         (Bytes.of_string (fmt.Sprintf_d n))))), w).
Proof.
  intros Hn. pose proof (Encode_Sprintf base58.BitcoinEncoding n Hn) as He.
  unfold shortener.base58Encoded.
  destruct (base58.Encode _ _) as [encoded err]. cbn [fst snd] in *.
  subst err. reflexivity.
Qed.

(** [GeneratedLink] is the slice [[:8]] of the specification's encoded
    string, and touches nothing. *)
Lemma GeneratedLink_slice (initialLink userId : string) (w : World) :
  shortener.GeneratedLink initialLink userId w
  = slice_to (Spec.encoded initialLink userId) 8 w.
Proof.
  unfold shortener.GeneratedLink, shortener.sha2560f, go_bind.
  unfold Spec.encoded, Spec.number.
  rewrite <- Uint64_SetBytes_trailing.
  set (n := big.Uint64 _).
  assert (Hn : 0 <= n < 10 ^ 20).
  { pose proof (Uint64_range
                  (big.SetBytes (SHA256.sum (Bytes.of_string (initialLink +:+ userId))))) as H.
    fold n in H. lia. }
  clearbody n. now rewrite base58Encoded_Sprintf.
Qed.

(** ** The base-58 digit loop has fuel to spare *)

Lemma fuel_for_enough (n : Z) : 0 <= n -> n < 2 ^ Z.of_nat (base58.fuel_for n).
Proof.
  intros Hn. unfold base58.fuel_for.
  rewrite Nat2Z.inj_succ, Z2Nat.id by apply Z.log2_nonneg.
  destruct (Z.eq_dec n 0) as [->|Hne]; [reflexivity|].
  apply Z.log2_spec. lia.
Qed.

(** Once [n < 2 ^ fuel] the loop stops on [n = 0], not on the fuel: more
    fuel gives the same digits. *)
Lemma divmod_loop_fuel (alphabet : list byte) (fuel : nat) :
  forall (n : Z) (extra : nat),
    0 <= n < 2 ^ Z.of_nat fuel ->
    base58.divmod_loop alphabet (fuel + extra) n
    = base58.divmod_loop alphabet fuel n.
Proof.
  induction fuel as [|fuel IH]; intros n extra Hn.
  - change (2 ^ Z.of_nat 0) with 1 in Hn. assert (n = 0) as -> by lia.
    destruct extra; reflexivity.
  - cbn [Nat.add base58.divmod_loop].
    destruct (0 <? n) eqn:E; [|reflexivity].
    apply Z.ltb_lt in E. f_equal. apply IH.
    rewrite Nat2Z.inj_succ, Z.pow_succ_r in Hn by lia.
    split; [apply Z.div_pos; lia|].
    apply Z.div_lt_upper_bound; lia.
Qed.

(** The fuel [Encode] gives the loop is enough for every number it can
    parse. *)
Lemma Encode_fuel_enough (alphabet : list byte) (n : Z) (extra : nat) :
  0 <= n ->
  base58.divmod_loop alphabet (base58.fuel_for n + extra) n
  = base58.divmod_loop alphabet (base58.fuel_for n) n.
Proof.
  intros Hn. apply divmod_loop_fuel. split; [exact Hn|now apply fuel_for_enough].
Qed.

(** ** The store *)

Lemma CacheDuration_value : store.CacheDuration = 21600 * 10 ^ 9.
Proof. reflexivity. Qed.

Lemma SaveUrlMapping_nil (shortUrl originalUrl userId : string) (w : World) :
  initialized w = false ->
  store.SaveUrlMapping shortUrl originalUrl userId w
  = (RuntimePanic NilDereference, w).
Proof.
  unfold initialized, store.SaveUrlMapping, store.load_redisClient, go_bind, deref.
  destruct (redisClient (storeService w)); [discriminate|reflexivity].
Qed.

Lemma RetrieveInitialUrl_nil (shortUrl : string) (w : World) :
  initialized w = false ->
  store.RetrieveInitialUrl shortUrl w = (RuntimePanic NilDereference, w).
Proof.
  unfold initialized, store.RetrieveInitialUrl, store.load_redisClient, go_bind, deref.
  destruct (redisClient (storeService w)); [discriminate|reflexivity].
Qed.

Lemma SaveUrlMapping_ok (shortUrl originalUrl userId : string) (w : World) :
  initialized w = true -> reachable w = true ->
  store.SaveUrlMapping shortUrl originalUrl userId w
  = (Returned tt, written shortUrl originalUrl w).
Proof.
  unfold initialized, reachable, written.
  unfold store.SaveUrlMapping, store.load_redisClient, go_bind, deref, on_server,
    redis.Set_, go_return.
  destruct w as [[f k c] out [[h|]]]; cbn [server storeService redisClient stdout
    redis.fault redis.keys redis.clock]; [|discriminate].
  destruct f; [discriminate|]. intros _ _. reflexivity.
Qed.

(** [SaveUrlMapping] and [RetrieveInitialUrl] never assign the handle. *)
Lemma SaveUrlMapping_storeService (shortUrl originalUrl userId : string) (w : World) :
  storeService (snd (store.SaveUrlMapping shortUrl originalUrl userId w))
  = storeService w.
Proof.
  unfold store.SaveUrlMapping, store.load_redisClient, go_bind, deref, on_server,
    redis.Set_, go_return, panic.
  destruct w as [[f k c] out [[h|]]]; cbn [server storeService redisClient stdout
    redis.fault redis.keys redis.clock]; [|reflexivity].
  destruct f; reflexivity.
Qed.

Lemma RetrieveInitialUrl_world (shortUrl : string) (w : World) :
  snd (store.RetrieveInitialUrl shortUrl w) = w.
Proof.
  unfold store.RetrieveInitialUrl, store.load_redisClient, go_bind, deref, on_server,
    redis.Get, go_return, panic.
  destruct w as [[f k c] out [[h|]]]; cbn [server storeService redisClient stdout
    redis.fault redis.keys redis.clock]; [|reflexivity].
  destruct f; [reflexivity|].
  destruct (redis.lookup_live _ _); reflexivity.
Qed.

(** What a reachable, initialised store answers to [GET]. *)
Lemma RetrieveInitialUrl_ok (shortUrl : string) (w : World) :
  initialized w = true -> reachable w = true ->
  store.RetrieveInitialUrl shortUrl w
  = (match redis.lookup_live shortUrl (server w) with
     | Some e => Returned (redis.value e)
     | None => Panicked "failed RetrieveInitialUrl url | Error : redis: nil"
     end, w).
Proof.
  unfold initialized, reachable.
  unfold store.RetrieveInitialUrl, store.load_redisClient, go_bind, deref, on_server,
    redis.Get, go_return, panic.
  destruct w as [[f k c] out [[h|]]]; cbn [server storeService redisClient stdout
    redis.fault redis.keys redis.clock]; [|discriminate].
  destruct f; [discriminate|]. intros _ _.
  destruct (redis.lookup_live _ _); reflexivity.
Qed.

Lemma InitializeStore_returns (w : World) (svc : StorageService) (w' : World) :
  store.InitializeStore w = (Returned svc, w') ->
  initialized w' = true /\ server w' = server w.
Proof.
  unfold store.InitializeStore, go_bind, on_server, redis.Ping, panic, print,
    store.store_redisClient, initialized.
  destruct w as [[f k c] out svc0]; cbn [server storeService redisClient stdout
    redis.fault redis.keys redis.clock].
  destruct f; [discriminate|]. intros H. injection H as _ <-. split; reflexivity.
Qed.

Lemma InitializeStore_reachable (w : World) :
  reachable w = true ->
  exists svc w', store.InitializeStore w = (Returned svc, w').
Proof.
  unfold reachable, store.InitializeStore, go_bind, on_server, redis.Ping, panic,
    print, store.store_redisClient.
  destruct w as [[f k c] out svc0]; cbn [server storeService redisClient stdout
    redis.fault redis.keys redis.clock].
  destruct f; [discriminate|]. intros _. eexists _, _. reflexivity.
Qed.

Lemma lookup_live_missing (code : string) (s : redis.Server) :
  missing code s -> redis.lookup_live code s = None.
Proof.
  unfold missing, redis.lookup_live, redis.live.
  intros [-> | (e & t & -> & -> & Ht)]; [reflexivity|].
  destruct (redis.clock s <=? t) eqn:E; [apply Z.leb_le in E; lia|reflexivity].
Qed.

(** ** The models of the libraries against known values *)

Example SHA256_K_ends :
  nth 0 SHA256._K 0 = 0x428a2f98 /\ nth 63 SHA256._K 0 = 0xc67178f2
  /\ length SHA256._K = 64%nat.
Proof. repeat split. Qed.

Example sha256_abc :
  map Bytes.to_Z (SHA256.sum (Bytes.of_string "abc"))
  = [ 0xba; 0x78; 0x16; 0xbf; 0x8f; 0x01; 0xcf; 0xea;
      0x41; 0x41; 0x40; 0xde; 0x5d; 0xae; 0x22; 0x23;
      0xb0; 0x03; 0x61; 0xa3; 0x96; 0x17; 0x7a; 0x9c;
      0xb4; 0x10; 0xff; 0x61; 0xf2; 0x00; 0x15; 0xad ].
Proof. vm_compute. reflexivity. Qed.

Example sha256_two_blocks :
  map Bytes.to_Z
    (SHA256.sum (Bytes.of_string
       "abcdbcdecdefdefgefghfghighijhijkijkljklmklmnlmnomnopnopq"))
  = [ 0x24; 0x8d; 0x6a; 0x61; 0xd2; 0x06; 0x38; 0xb8;
      0xe5; 0xc0; 0x26; 0x93; 0x0c; 0x3e; 0x60; 0x39;
      0xa3; 0x3c; 0xe4; 0x59; 0x64; 0xff; 0x21; 0x67;
      0xf6; 0xec; 0xed; 0xd4; 0x19; 0xdb; 0x06; 0xc1 ].
Proof. vm_compute. reflexivity. Qed.

Example Sprintf_d_values :
  (fmt.Sprintf_d 0, fmt.Sprintf_d 10, fmt.Sprintf_d 18446744073709551615)
  = ("0", "10", "18446744073709551615").
Proof. vm_compute. reflexivity. Qed.

Example Encode_values :
  map (fun src => base58.Encode base58.BitcoinEncoding (Bytes.of_string src))
      ["0"; "57"; "0058"; ""]
  = map (fun out => (Bytes.of_string out, None)) ["1"; "z"; "1121"; ""].
Proof. vm_compute. reflexivity. Qed.

Example Encode_rejects :
  snd (base58.Encode base58.BitcoinEncoding (Bytes.of_string "-57"))
  = Some (base58.Negative (-57))
  /\ snd (base58.Encode base58.BitcoinEncoding (Bytes.of_string "5x"))
     = Some (base58.NotANumber (Bytes.of_string "5x")).
Proof. split; vm_compute; reflexivity. Qed.

(** The other two links of the unit test, and the link printed by the
    walkthrough of the HTTP endpoint. *)
Example test_links :
  fst (shortener.GeneratedLink
         "https://www.eddywm.com/lets-build-a-url-shortener-in-go-with-redis-part-2-storage-layer/"
         UserId (boot empty_server)) = Returned "d66yfx7N"
  /\ fst (shortener.GeneratedLink
            "https://spectrum.ieee.org/automaton/robotics/home-robots/hello-robots-stretch-mobile-manipulator"
            UserId (boot empty_server)) = Returned "dhZTayYQ"
  /\ fst (shortener.GeneratedLink guru3d "e0dba740-fc4b-4977-872c-d360239e6b10"
            (boot empty_server)) = Returned "9Zatkhpi".
Proof. split; [|split]; vm_compute; reflexivity. Qed.

(** A failed health check is fatal: [InitializeStore] panics and the
    handle stays nil. *)
Lemma InitializeStore_unreachable (w : World) :
  reachable w = false ->
  exists v, store.InitializeStore w = (Panicked v, w).
Proof.
  unfold reachable, store.InitializeStore, go_bind, on_server, redis.Ping, panic.
  destruct w as [[f k c] out svc0]; cbn [server storeService redisClient stdout
    redis.fault redis.keys redis.clock].
  destruct f; [|discriminate]. intros _. eexists. reflexivity.
Qed.

Example InitializeStore_refused :
  fst (store.InitializeStore (boot unreachable_server))
  = Panicked "Error init Redis dial tcp 127.0.0.1:6379: connect: connection refused:".
Proof. reflexivity. Qed.

(** ** The claims *)

Lemma short_number : Spec.number short_link short_user = 1074476437333.
Proof. vm_compute. reflexivity. Qed.

Lemma short_encoded : Spec.encoded short_link short_user = "VE2obd6".
Proof. vm_compute. reflexivity. Qed.

Lemma guru3d_encoded : Spec.encoded guru3d UserId = "jTa4L57Pbxt".
Proof. vm_compute. reflexivity. Qed.

(** C1. For every input, [SetBytes] of the whole digest followed by
    [Uint64] is the digest's trailing 8 bytes read big-endian, and
    [GeneratedLink] is the slice [[:8]] of the base-58 encoding of the
    decimal rendering of that integer: the first 8 characters when the
    encoding has at least 8, the slice-bounds panic when it has fewer.
    On [short_link], [short_user] the encoding is VE2obd6, of 7
    characters, and the call panics where it should return. *)
Theorem C1_generate_pipeline (longUrl ownerId : string) (w : World) :
  big.Uint64 (big.SetBytes (shortener.sha2560f (longUrl +:+ ownerId)))
  = Spec.number longUrl ownerId
  /\ shortener.GeneratedLink longUrl ownerId w
     = (if (8 <=? String.length (Spec.encoded longUrl ownerId))%nat
        then Returned (Spec.generate longUrl ownerId)
        else RuntimePanic
               (SliceBoundsOutOfRange 8
                  (String.length (Spec.encoded longUrl ownerId))), w)
  /\ Spec.generate short_link short_user = "VE2obd6"
  /\ shortener.GeneratedLink short_link short_user w
     = (RuntimePanic (SliceBoundsOutOfRange 8 7), w).
Proof.
  split; [apply Uint64_SetBytes_trailing|].
  split.
  - rewrite GeneratedLink_slice. unfold slice_to, Spec.generate.
    now destruct (8 <=? String.length (Spec.encoded longUrl ownerId))%nat.
  - split.
    + unfold Spec.generate. rewrite short_encoded. reflexivity.
    + rewrite GeneratedLink_slice. unfold slice_to. rewrite short_encoded.
      reflexivity.
Qed.

(** C2. On the long URL and owner id of the unit test, [GeneratedLink]
    returns the pinned code jTa4L57P. *)
Theorem C2_generate_reference_value (w : World) :
  shortener.GeneratedLink guru3d UserId w = (Returned "jTa4L57P", w).
Proof.
  rewrite GeneratedLink_slice. unfold slice_to. rewrite guru3d_encoded.
  reflexivity.
Qed.

(** C4. On [short_link], [short_user] the slice [finalString[:8]] is out
    of range: [GeneratedLink] ends in a run-time panic instead of
    returning the 7-character string. *)
Theorem C4_generate_short_encoding_panics (w : World) :
  shortener.GeneratedLink short_link short_user w
  = (RuntimePanic (SliceBoundsOutOfRange 8 7), w).
Proof.
  rewrite GeneratedLink_slice. unfold slice_to. rewrite short_encoded.
  reflexivity.
Qed.

(** C7. [GeneratedLink] is deterministic and pure: its outcome is the
    same in any two states of the process and its surroundings, and it
    leaves the state as it found it. *)
Theorem C7_generate_deterministic (longUrl ownerId : string) (w1 w2 : World) :
  fst (shortener.GeneratedLink longUrl ownerId w1)
  = fst (shortener.GeneratedLink longUrl ownerId w2)
  /\ snd (shortener.GeneratedLink longUrl ownerId w1) = w1.
Proof.
  rewrite !GeneratedLink_slice. unfold slice_to.
  destruct (8 <=? String.length (Spec.encoded longUrl ownerId))%nat;
    split; reflexivity.
Qed.

(** C9. [GeneratedLink] depends on the concatenation only: two pairs
    with the same concatenation get the same outcome. *)
Theorem C9_generate_concatenation_only
  (u o u' o' : string) (w : World) :
  u +:+ o = u' +:+ o' ->
  shortener.GeneratedLink u o w = shortener.GeneratedLink u' o' w.
Proof.
  intros H. unfold shortener.GeneratedLink. now rewrite H.
Qed.

Lemma C9_generate_concatenation_only_witness :
  "ab" +:+ "c" = "a" +:+ "bc"
  /\ shortener.GeneratedLink "ab" "c" (boot empty_server)
     = shortener.GeneratedLink "a" "bc" (boot empty_server).
Proof.
  split; [reflexivity|].
  apply (C9_generate_concatenation_only "ab" "c" "a" "bc" (boot empty_server)).
  reflexivity.
Defined.

Lemma step_initialized (w w' : World) :
  step w w' -> initialized w' = initialized w.
Proof.
  intros H. unfold initialized. destruct H; cbn [storeService].
  - now rewrite SaveUrlMapping_storeService.
  - now rewrite RetrieveInitialUrl_world.
  - rewrite GeneratedLink_slice. unfold slice_to.
    now destruct (8 <=? _)%nat.
  - reflexivity.
  - reflexivity.
Qed.

Lemma steps_initialized (w w' : World) :
  rtc step w w' -> initialized w' = initialized w.
Proof.
  induction 1 as [|w1 w2 w3 H12 _ IH]; [reflexivity|].
  rewrite IH. now apply step_initialized.
Qed.

(** C3 (as amended). For a code that is absent from the store or whose
    deadline has passed, [RetrieveInitialUrl] on an initialised, reachable
    store panics with the message that wraps Redis's nil reply; the store
    is left as it was. *)
Theorem C3_get_miss_panics (code : string) (w : World) :
  initialized w = true -> reachable w = true ->
  missing code (server w) ->
  store.RetrieveInitialUrl code w
  = (Panicked "failed RetrieveInitialUrl url | Error : redis: nil", w).
Proof.
  intros Hi Hr Hm. rewrite RetrieveInitialUrl_ok by assumption.
  now rewrite lookup_live_missing.
Qed.

Lemma C3_get_miss_panics_witness :
  initialized ready_world = true /\ reachable ready_world = true
  /\ missing "Jsz4k57oAX" (server ready_world)
  /\ store.RetrieveInitialUrl "Jsz4k57oAX" ready_world
     = (Panicked "failed RetrieveInitialUrl url | Error : redis: nil", ready_world).
Proof.
  assert (Hm : missing "Jsz4k57oAX" (server ready_world)) by (left; reflexivity).
  split; [reflexivity|]. split; [reflexivity|]. split; [exact Hm|].
  apply (C3_get_miss_panics "Jsz4k57oAX" ready_world); [reflexivity|reflexivity|exact Hm].
Defined.

(** C3 as stated fails: an unknown code on a freshly initialised store,
    and a code read one nanosecond after its six hours, both end in a
    panic, not in a value handed to the caller. *)
Lemma C3_get_miss_counterexample :
  fst (store.RetrieveInitialUrl "Jsz4k57oAX" ready_world)
  = Panicked "failed RetrieveInitialUrl url | Error : redis: nil"
  /\ fst (store.RetrieveInitialUrl "Jsz4k57oAX"
            (elapse (store.CacheDuration + 1)
               (snd (store.SaveUrlMapping "Jsz4k57oAX" guru3d UserId ready_world))))
     = Panicked "failed RetrieveInitialUrl url | Error : redis: nil"
  /\ ~ get_returns_on_miss.
Proof.
  split; [vm_compute; reflexivity|]. split; [vm_compute; reflexivity|].
  intros H.
  destruct (H "Jsz4k57oAX" ready_world) as [r Hr];
    [reflexivity|reflexivity|left; reflexivity|].
  vm_compute in Hr. discriminate.
Qed.

(** C5. On an initialised, reachable store, [SaveUrlMapping] followed,
    less than six hours later, by [RetrieveInitialUrl] of the same code
    returns the long URL that was saved. *)
Theorem C5_put_get_roundtrip (code longUrl ownerId : string) (d : Z) (w : World) :
  initialized w = true -> reachable w = true ->
  0 <= d < store.CacheDuration ->
  fst (store.SaveUrlMapping code longUrl ownerId w) = Returned tt
  /\ fst (store.RetrieveInitialUrl code
            (elapse d (snd (store.SaveUrlMapping code longUrl ownerId w))))
     = Returned longUrl.
Proof.
  intros Hi Hr Hd. rewrite SaveUrlMapping_ok by assumption. cbn [fst snd].
  split; [reflexivity|].
  rewrite RetrieveInitialUrl_ok by (try exact Hi; reflexivity).
  cbn [fst]. unfold redis.lookup_live, redis.live.
  cbn [elapse written server redis.advance redis.keys redis.clock].
  rewrite lookup_insert_eq. cbn [redis.deadline redis.value].
  destruct (_ <=? _) eqn:E; [reflexivity|]. apply Z.leb_gt in E. lia.
Qed.

Lemma C5_put_get_roundtrip_witness :
  initialized ready_world = true /\ reachable ready_world = true
  /\ 0 <= 3600 * 10 ^ 9 < store.CacheDuration
  /\ fst (store.SaveUrlMapping "Jsz4k57oAX" guru3d UserId ready_world) = Returned tt
  /\ fst (store.RetrieveInitialUrl "Jsz4k57oAX"
            (elapse (3600 * 10 ^ 9)
               (snd (store.SaveUrlMapping "Jsz4k57oAX" guru3d UserId ready_world))))
     = Returned guru3d.
Proof.
  split; [reflexivity|]. split; [reflexivity|].
  split; [rewrite CacheDuration_value; lia|].
  apply (C5_put_get_roundtrip "Jsz4k57oAX" guru3d UserId (3600 * 10 ^ 9) ready_world);
    [reflexivity|reflexivity|].
  rewrite CacheDuration_value; lia.
Defined.

(** C6. On an initialised, reachable store, [SaveUrlMapping] returns and
    leaves at [code] the long URL with a deadline six hours after the
    time of the write, whatever was stored there before; every other code
    keeps what it had; clock, output and handle are untouched. *)
Theorem C6_put_writes_with_ttl (code longUrl ownerId : string) (w : World) :
  initialized w = true -> reachable w = true ->
  exists w',
    store.SaveUrlMapping code longUrl ownerId w = (Returned tt, w')
    /\ redis.keys (server w') !! code
       = Some {| redis.value := longUrl;
                 redis.deadline := Some (redis.clock (server w) + 6 * 3600 * 10 ^ 9) |}
    /\ (forall other, other <> code ->
          redis.keys (server w') !! other = redis.keys (server w) !! other)
    /\ redis.clock (server w') = redis.clock (server w)
    /\ stdout w' = stdout w
    /\ storeService w' = storeService w.
Proof.
  intros Hi Hr. exists (written code longUrl w).
  split; [now apply SaveUrlMapping_ok|].
  cbn [written server redis.keys redis.clock stdout storeService].
  split; [now rewrite lookup_insert_eq|].
  split; [|repeat split].
  intros other Hne. now rewrite lookup_insert_ne.
Qed.

Lemma C6_put_writes_with_ttl_witness :
  initialized ready_world = true /\ reachable ready_world = true
  /\ exists w',
    store.SaveUrlMapping "Jsz4k57oAX" guru3d UserId ready_world = (Returned tt, w')
    /\ redis.keys (server w') !! "Jsz4k57oAX"
       = Some {| redis.value := guru3d;
                 redis.deadline :=
                   Some (redis.clock (server ready_world) + 6 * 3600 * 10 ^ 9) |}
    /\ (forall other, other <> "Jsz4k57oAX" ->
          redis.keys (server w') !! other = redis.keys (server ready_world) !! other)
    /\ redis.clock (server w') = redis.clock (server ready_world)
    /\ stdout w' = stdout ready_world
    /\ storeService w' = storeService ready_world.
Proof.
  split; [reflexivity|]. split; [reflexivity|].
  apply (C6_put_writes_with_ttl "Jsz4k57oAX" guru3d UserId ready_world); reflexivity.
Defined.

(** C8. The owner id is not stored: two [SaveUrlMapping] calls that
    differ only in the owner id have the same outcome and leave the same
    state, so whatever runs afterwards, any [RetrieveInitialUrl] among it,
    behaves the same. *)
Theorem C8_put_ignores_owner
  (code longUrl owner1 owner2 : string) (w : World) :
  store.SaveUrlMapping code longUrl owner1 w
  = store.SaveUrlMapping code longUrl owner2 w
  /\ (forall (d : Z) (code' : string),
        store.RetrieveInitialUrl code'
          (elapse d (snd (store.SaveUrlMapping code longUrl owner1 w)))
        = store.RetrieveInitialUrl code'
            (elapse d (snd (store.SaveUrlMapping code longUrl owner2 w))))
  /\ (forall (A : Type) (after : Go A),
        (run! store.SaveUrlMapping code longUrl owner1 in after) w
        = (run! store.SaveUrlMapping code longUrl owner2 in after) w).
Proof. repeat split. Qed.

(** C10. While the handle of [storeService] is nil, and it is nil when
    the process starts, [SaveUrlMapping] and [RetrieveInitialUrl] end in
    a nil-dereference run-time panic; once [InitializeStore] has
    returned, the handle is non-nil and stays so through every later
    call, so neither function can end that way. *)
Theorem C10_store_needs_initialize (s : redis.Server) (w : World) :
  initialized (boot s) = false
  /\ (initialized w = false ->
      forall shortUrl originalUrl userId,
        store.SaveUrlMapping shortUrl originalUrl userId w
        = (RuntimePanic NilDereference, w)
        /\ store.RetrieveInitialUrl shortUrl w = (RuntimePanic NilDereference, w))
  /\ (forall svc w1 w2,
        store.InitializeStore w = (Returned svc, w1) -> rtc step w1 w2 ->
        initialized w2 = true
        /\ forall shortUrl originalUrl userId,
             fst (store.SaveUrlMapping shortUrl originalUrl userId w2)
             <> RuntimePanic NilDereference
             /\ fst (store.RetrieveInitialUrl shortUrl w2)
                <> RuntimePanic NilDereference).
Proof.
  split; [reflexivity|]. split.
  - intros Hnil shortUrl originalUrl userId.
    split; [now apply SaveUrlMapping_nil|now apply RetrieveInitialUrl_nil].
  - intros svc w1 w2 Hinit Hsteps.
    apply InitializeStore_returns in Hinit as [Hi _].
    apply steps_initialized in Hsteps. rewrite Hi in Hsteps.
    split; [exact Hsteps|]. intros shortUrl originalUrl userId.
    unfold initialized in Hsteps.
    unfold store.SaveUrlMapping, store.RetrieveInitialUrl, store.load_redisClient,
      go_bind, deref, on_server, redis.Set_, redis.Get, go_return, panic.
    destruct (redisClient (storeService w2)); [|discriminate].
    destruct (redis.fault (server w2)); cbn; split; try discriminate.
    destruct (redis.lookup_live _ _); discriminate.
Qed.

Lemma C10_store_needs_initialize_witness :
  initialized (boot empty_server) = false
  /\ store.SaveUrlMapping "Jsz4k57oAX" guru3d UserId (boot empty_server)
     = (RuntimePanic NilDereference, boot empty_server)
  /\ store.RetrieveInitialUrl "Jsz4k57oAX" (boot empty_server)
     = (RuntimePanic NilDereference, boot empty_server)
  /\ initialized ready_world = true
  /\ fst (store.RetrieveInitialUrl "Jsz4k57oAX" ready_world)
     <> RuntimePanic NilDereference.
Proof.
  destruct (C10_store_needs_initialize empty_server (boot empty_server))
    as (Hboot & Hnil & Hready).
  split; [exact Hboot|].
  destruct (Hnil Hboot "Jsz4k57oAX" guru3d UserId) as [Hput Hget].
  split; [exact Hput|]. split; [exact Hget|].
  destruct (Hready (storeService ready_world) ready_world ready_world)
    as [Hi Hcalls]; [reflexivity|apply rtc_refl|].
  split; [exact Hi|].
  apply (Hcalls "Jsz4k57oAX" guru3d UserId).
Defined.

(** * Further properties of the packages *)

(** ** Strings and byte slices *)

Lemma to_string_length (bs : list byte) :
  String.length (Bytes.to_string bs) = length bs.
Proof.
  unfold Bytes.to_string, string_of_list_byte.
  induction bs as [|b bs IH]; cbn; [reflexivity|now rewrite IH].
Qed.

Lemma substring_to_string (n : nat) (bs : list byte) :
  substring 0 n (Bytes.to_string bs) = Bytes.to_string (firstn n bs).
Proof.
  unfold Bytes.to_string, string_of_list_byte.
  revert bs. induction n as [|n IH]; intros [|b bs]; cbn; try reflexivity.
  now rewrite IH.
Qed.

(** ** How long the encoding is *)

(** The leading digit of a positive number is not [0]. *)
Lemma formatBits_head_nonzero (fuel : nat) :
  forall (us : Z) (a : list byte),
    0 < us < 10 ^ (Z.of_nat fuel + 1) ->
    exists c rest, fmt.formatBits fuel us a = c :: rest /\ Bytes.to_Z c <> 48.
Proof.
  induction fuel as [|fuel IH]; intros us a Hus.
  - change (10 ^ (Z.of_nat 0 + 1)) with 10 in Hus. cbn [fmt.formatBits].
    eexists _, _. split; [reflexivity|]. rewrite to_Z_of_Z; lia.
  - cbn [fmt.formatBits]. destruct (10 <=? us) eqn:E.
    + apply Z.leb_le in E. apply IH.
      split; [apply Z.div_str_pos; lia|].
      apply Z.div_lt_upper_bound; [lia|].
      rewrite <- Z.pow_succ_r by lia.
      replace (Z.succ (Z.of_nat fuel + 1)) with (Z.of_nat (S fuel) + 1) by lia.
      lia.
    + apply Z.leb_gt in E.
      eexists _, _. split; [reflexivity|]. rewrite to_Z_of_Z; lia.
Qed.

(** On the rendering of a positive [uint64] the encoder writes no
    padding: the output is the digits of the loop, most significant
    first. *)
Lemma Encode_Sprintf_pos (alphabet : list byte) (n : Z) :
  0 < n < 10 ^ 20 ->
  base58.Encode alphabet (Bytes.of_string (fmt.Sprintf_d n))
  = (rev (base58.divmod_loop alphabet (base58.fuel_for n) n), None).
Proof.
  intros Hn.
  pose proof (SetString10_Sprintf n ltac:(lia)) as Hs.
  unfold fmt.Sprintf_d in *. rewrite of_to_string in *.
  assert (Hb : 0 < n < 10 ^ (Z.of_nat 19 + 1)) by (cbn; lia).
  destruct (formatBits_head_nonzero 19 n [] Hb) as (c & rest & Heq & Hc).
  unfold base58.Encode. rewrite Heq in *. rewrite Hs.
  destruct (n <? 0) eqn:E; [apply Z.ltb_lt in E; lia|].
  cbn [base58.zero_prefix].
  destruct (Bytes.to_Z c =? 48) eqn:E48; [apply Z.eqb_eq in E48; lia|].
  reflexivity.
Qed.

Lemma divmod_loop_length_le (alphabet : list byte) (fuel : nat) :
  forall (n : Z) (k : nat),
    0 <= n < 58 ^ Z.of_nat k ->
    (length (base58.divmod_loop alphabet fuel n) <= k)%nat.
Proof.
  induction fuel as [|fuel IH]; intros n k Hn; cbn [base58.divmod_loop length].
  - lia.
  - destruct (0 <? n) eqn:E; cbn [length]; [|lia].
    apply Z.ltb_lt in E. destruct k as [|k].
    + change (58 ^ Z.of_nat 0) with 1 in Hn. lia.
    + apply le_n_S. apply IH.
      rewrite Nat2Z.inj_succ, Z.pow_succ_r in Hn by lia.
      split; [apply Z.div_pos; lia|]. apply Z.div_lt_upper_bound; lia.
Qed.

Lemma divmod_loop_length_gt (alphabet : list byte) (fuel : nat) :
  forall (n : Z) (k : nat),
    n < 2 ^ Z.of_nat fuel -> 58 ^ Z.of_nat k <= n ->
    (k < length (base58.divmod_loop alphabet fuel n))%nat.
Proof.
  induction fuel as [|fuel IH]; intros n k Hfuel Hn.
  - pose proof (Z.pow_pos_nonneg 58 (Z.of_nat k) ltac:(lia) ltac:(lia)).
    change (2 ^ Z.of_nat 0) with 1 in Hfuel. lia.
  - pose proof (Z.pow_pos_nonneg 58 (Z.of_nat k) ltac:(lia) ltac:(lia)) as Hpos.
    cbn [base58.divmod_loop].
    destruct (0 <? n) eqn:E; [|apply Z.ltb_ge in E; lia].
    cbn [length]. destruct k as [|k]; [lia|].
    apply -> Nat.succ_lt_mono. apply IH.
    + rewrite Nat2Z.inj_succ, Z.pow_succ_r in Hfuel by lia.
      apply Z.div_lt_upper_bound; lia.
    + rewrite Nat2Z.inj_succ, Z.pow_succ_r in Hn by lia.
      apply Z.div_le_lower_bound; lia.
Qed.

(** The encoded string reaches 8 characters exactly when the derived
    integer reaches [58 ^ 7]. *)
Lemma encoded_length_threshold (longUrl ownerId : string) :
  (8 <= String.length (Spec.encoded longUrl ownerId))%nat
  <-> 58 ^ 7 <= Spec.number longUrl ownerId.
Proof.
  unfold Spec.encoded. set (n := Spec.number longUrl ownerId).
  assert (Hn : 0 <= n < 2 ^ 64).
  { unfold n, Spec.number. rewrite <- Uint64_SetBytes_trailing. apply Uint64_range. }
  clearbody n. rewrite to_string_length.
  destruct (Z.eq_dec n 0) as [->|Hne].
  - split; [vm_compute; lia|lia].
  - rewrite Encode_Sprintf_pos by lia. cbn [fst]. rewrite length_rev.
    split; intros H.
    + destruct (Z.le_gt_cases (58 ^ 7) n) as [Hle|Hgt]; [exact Hle|].
      pose proof (divmod_loop_length_le base58.BitcoinEncoding
                    (base58.fuel_for n) n 7 ltac:(change (Z.of_nat 7) with 7; lia)).
      lia.
    + pose proof (divmod_loop_length_gt base58.BitcoinEncoding
                    (base58.fuel_for n) n 7
                    (fuel_for_enough n ltac:(lia)) H).
      lia.
Qed.

(** X1. [GeneratedLink] returns, and then the first 8 characters of the
    encoding, exactly when the integer derived from the digest is at
    least [58 ^ 7]; below that it ends in the slice-bounds panic. *)
Theorem GeneratedLink_returns_iff (initialLink userId : string) (w : World) :
  shortener.GeneratedLink initialLink userId w
  = if 58 ^ 7 <=? Spec.number initialLink userId
    then (Returned (Spec.generate initialLink userId), w)
    else (RuntimePanic
            (SliceBoundsOutOfRange 8
               (String.length (Spec.encoded initialLink userId))), w).
Proof.
  rewrite GeneratedLink_slice. unfold slice_to, Spec.generate.
  pose proof (encoded_length_threshold initialLink userId) as Hth.
  destruct (58 ^ 7 <=? Spec.number initialLink userId) eqn:E.
  - apply Z.leb_le in E. apply Hth in E. apply Nat.leb_le in E. now rewrite E.
  - apply Z.leb_gt in E.
    destruct (8 <=? String.length (Spec.encoded initialLink userId))%nat eqn:E8;
      [|reflexivity].
    apply Nat.leb_le in E8. apply Hth in E8. lia.
Qed.

(** ** The characters of a code *)

Lemma symbol_In (alphabet : list byte) (i : Z) :
  0 <= i < Z.of_nat (length alphabet) ->
  In (base58.symbol alphabet i) alphabet.
Proof. intros Hi. unfold base58.symbol. apply nth_In. lia. Qed.

Lemma divmod_loop_In (alphabet : list byte) (fuel : nat) :
  length alphabet = 58%nat ->
  forall n, Forall (fun b => In b alphabet) (base58.divmod_loop alphabet fuel n).
Proof.
  intros Hlen. induction fuel as [|fuel IH]; intros n; cbn [base58.divmod_loop].
  - constructor.
  - destruct (0 <? n); constructor; [|apply IH].
    apply symbol_In. rewrite Hlen.
    pose proof (Z.mod_pos_bound n 58 ltac:(lia)). lia.
Qed.

Lemma zero_prefix_In (alphabet src : list byte) :
  length alphabet = 58%nat ->
  Forall (fun b => In b alphabet) (base58.zero_prefix alphabet src).
Proof.
  intros Hlen. induction src as [|c src IH]; cbn [base58.zero_prefix].
  - constructor.
  - destruct (Bytes.to_Z c =? 48); constructor; [|exact IH].
    apply symbol_In. rewrite Hlen. lia.
Qed.

(** Whatever it is given, the encoder writes symbols of its alphabet
    only. *)
Lemma Encode_In (alphabet src : list byte) :
  length alphabet = 58%nat ->
  Forall (fun b => In b alphabet) (fst (base58.Encode alphabet src)).
Proof.
  intros Hlen. unfold base58.Encode. destruct src as [|c src]; [constructor|].
  destruct (big.SetString10 (c :: src)) as [n|]; [|constructor].
  destruct (n <? 0); [constructor|]. cbn [fst].
  apply Forall_app. split; [now apply zero_prefix_In|].
  apply Forall_rev. now apply divmod_loop_In.
Qed.

Lemma Bitcoin_unambiguous :
  Forall (fun b => ~ In b (Bytes.of_string "0OIl")) base58.BitcoinEncoding.
Proof.
  unfold base58.BitcoinEncoding.
  repeat (constructor; [intros [H|[H|[H|[H|[]]]]]; discriminate H|]).
  constructor.
Qed.

(** X2. A code that [GeneratedLink] returns has exactly 8 characters,
    each of them a symbol of the Bitcoin alphabet, so none of them is
    [0], [O], [I] or [l]. *)
Theorem GeneratedLink_code_shape
  (initialLink userId code : string) (w w' : World) :
  shortener.GeneratedLink initialLink userId w = (Returned code, w') ->
  String.length code = 8%nat
  /\ Forall (fun b => In b base58.BitcoinEncoding) (Bytes.of_string code)
  /\ Forall (fun b => ~ In b (Bytes.of_string "0OIl")) (Bytes.of_string code).
Proof.
  rewrite GeneratedLink_slice. unfold slice_to, Spec.encoded.
  set (out := fst (base58.Encode base58.BitcoinEncoding _)).
  assert (Hin : Forall (fun b => In b base58.BitcoinEncoding) (firstn 8 out)).
  { apply Forall_take. apply Encode_In. reflexivity. }
  clearbody out.
  rewrite to_string_length, substring_to_string.
  destruct (8 <=? length out)%nat eqn:E; [|discriminate].
  apply Nat.leb_le in E. intros H. injection H as <- _.
  rewrite to_string_length, of_to_string, length_firstn.
  split; [lia|]. split; [exact Hin|].
  pose proof (proj1 (List.Forall_forall _ _) Bitcoin_unambiguous) as Hun.
  induction Hin as [|b bs Hb _ IH]; constructor; [now apply Hun|exact IH].
Qed.

Lemma GeneratedLink_code_shape_witness :
  shortener.GeneratedLink guru3d UserId (boot empty_server)
  = (Returned "jTa4L57P", boot empty_server)
  /\ String.length "jTa4L57P" = 8%nat
  /\ Forall (fun b => In b base58.BitcoinEncoding) (Bytes.of_string "jTa4L57P")
  /\ Forall (fun b => ~ In b (Bytes.of_string "0OIl")) (Bytes.of_string "jTa4L57P").
Proof.
  assert (H : shortener.GeneratedLink guru3d UserId (boot empty_server)
              = (Returned "jTa4L57P", boot empty_server))
    by (vm_compute; reflexivity).
  split; [exact H|].
  exact (GeneratedLink_code_shape guru3d UserId "jTa4L57P"
           (boot empty_server) (boot empty_server) H).
Defined.

(** ** What the encoder accepts *)

Lemma scan_digits_digits (src : list byte) :
  Forall (fun c => big.is_digit c = true) src ->
  forall acc, 0 <= acc -> exists n, big.scan_digits acc src = Some n /\ 0 <= n.
Proof.
  induction 1 as [|c src Hc _ IH]; intros acc Hacc; cbn [big.scan_digits].
  - eauto.
  - rewrite Hc. apply IH. unfold big.is_digit in Hc.
    apply andb_prop in Hc as [Hlo _]. apply Z.leb_le in Hlo. lia.
Qed.

Lemma scan_digits_stray (src : list byte) :
  Exists (fun c => big.is_digit c = false) src ->
  forall acc, big.scan_digits acc src = None.
Proof.
  induction 1 as [c src Hc|c src _ IH]; intros acc; cbn [big.scan_digits].
  - now rewrite Hc.
  - destruct (big.is_digit c); [apply IH|reflexivity].
Qed.

(** X3. On a byte string of decimal digits only, of any length, the
    empty one included, [base58Encoded] returns a string and neither
    prints nor exits. *)
Theorem base58Encoded_digits (bytes : list byte) (w : World) :
  Forall (fun c => big.is_digit c = true) bytes ->
  exists s, shortener.base58Encoded bytes w = (Returned s, w).
Proof.
  intros Hd. unfold shortener.base58Encoded, base58.Encode.
  destruct bytes as [|c rest]; [eexists; reflexivity|].
  rewrite SetString10_digits by (now inversion Hd).
  destruct (scan_digits_digits (c :: rest) Hd 0 ltac:(lia)) as (n & -> & Hn).
  destruct (n <? 0) eqn:E; [apply Z.ltb_lt in E; lia|].
  eexists; reflexivity.
Qed.

Lemma base58Encoded_digits_witness :
  Forall (fun c => big.is_digit c = true) (Bytes.of_string "0058")
  /\ exists s, shortener.base58Encoded (Bytes.of_string "0058") (boot empty_server)
               = (Returned s, boot empty_server).
Proof.
  assert (H : Forall (fun c => big.is_digit c = true) (Bytes.of_string "0058"))
    by (repeat constructor).
  split; [exact H|].
  exact (base58Encoded_digits (Bytes.of_string "0058") (boot empty_server) H).
Defined.

(** X4. If any byte after the first is not a decimal digit,
    [base58Encoded] prints one line, the encoder's error for that
    input, and ends the process with exit status 1; nothing else is
    changed. *)
Theorem base58Encoded_stray_byte (c : byte) (rest : list byte) (w : World) :
  Exists (fun b => big.is_digit b = false) rest ->
  shortener.base58Encoded (c :: rest) w
  = (Exited 1,
     {| server := server w;
        stdout := (stdout w ++ [ErrorLine (base58.NotANumber (c :: rest))])%list;
        storeService := storeService w |}).
Proof.
  intros Hs. unfold shortener.base58Encoded, base58.Encode.
  assert (Hnone : big.SetString10 (c :: rest) = None).
  { unfold big.SetString10.
    pose proof (scan_digits_stray rest Hs) as Hscan.
    destruct (Bytes.to_Z c =? 43); [destruct rest; [inversion Hs|apply Hscan]|].
    destruct (Bytes.to_Z c =? 45);
      [destruct rest; [inversion Hs|now rewrite Hscan]|].
    cbn [big.scan_digits]. destruct (big.is_digit c); [apply Hscan|reflexivity]. }
  rewrite Hnone. reflexivity.
Qed.

Lemma base58Encoded_stray_byte_witness :
  Exists (fun b => big.is_digit b = false) (Bytes.of_string "x")
  /\ fst (shortener.base58Encoded (Bytes.of_string "5x") (boot empty_server))
     = Exited 1.
Proof.
  assert (H : Exists (fun b => big.is_digit b = false) (Bytes.of_string "x"))
    by (left; reflexivity).
  split; [exact H|].
  exact (f_equal fst
           (base58Encoded_stray_byte "5"%byte (Bytes.of_string "x")
              (boot empty_server) H)).
Defined.

(** ** The store: start-up and outages *)

Lemma reachable_fault (w : World) : reachable w = true -> redis.fault (server w) = None.
Proof. unfold reachable. now destruct (redis.fault (server w)). Qed.

Lemma unreachable_fault (w : World) :
  reachable w = false -> redis.fault (server w) = Some (fault_text w).
Proof. unfold reachable, fault_text. now destruct (redis.fault (server w)). Qed.

(** What [SaveUrlMapping] leaves behind, in every case. *)
Lemma SaveUrlMapping_world (shortUrl originalUrl userId : string) (w : World) :
  snd (store.SaveUrlMapping shortUrl originalUrl userId w)
  = if initialized w && reachable w then written shortUrl originalUrl w else w.
Proof.
  destruct (initialized w) eqn:Hi; cbn [andb].
  - destruct (reachable w) eqn:Hr.
    + now rewrite SaveUrlMapping_ok.
    + apply unreachable_fault in Hr. unfold initialized in Hi.
      unfold store.SaveUrlMapping, store.load_redisClient, go_bind, deref,
        on_server, redis.Set_, panic.
      destruct (redisClient (storeService w)); [|discriminate].
      rewrite Hr. now destruct w.
  - now rewrite SaveUrlMapping_nil.
Qed.

(** X5. When Redis answers the ping, [InitializeStore] returns the
    package-level [storeService] with a client for localhost:6379,
    database 0, prints the pong line, and sends nothing else to the
    server. *)
Theorem InitializeStore_ok (w : World) :
  reachable w = true ->
  let client :=
    redis.NewClient {| redis.Addr := "localhost:6379"; redis.Password := "";
                       redis.DB := 0 |} in
  exists w',
    store.InitializeStore w = (Returned (storeService w'), w')
    /\ redisClient (storeService w') = Some client
    /\ server w' = server w
    /\ stdout w'
       = (stdout w
            ++ [Text (newline +:+ "Redis started successfully: pong message = {PONG}")])%list.
Proof.
  intros Hr client. apply reachable_fault in Hr.
  unfold store.InitializeStore, go_bind, on_server, redis.Ping, print,
    store.store_redisClient.
  destruct w as [[f k c] out svc0]. cbn [server redis.fault] in Hr. subst f.
  cbn [server storeService redisClient stdout redis.fault].
  exists {| server := {| redis.fault := None; redis.keys := k; redis.clock := c |};
            stdout := (out ++ [Text (newline +:+ "Redis started successfully: pong message = {PONG}")])%list;
            storeService := {| redisClient := Some client |} |}.
  repeat split.
Qed.

Lemma InitializeStore_ok_witness :
  reachable (boot empty_server) = true
  /\ exists w',
    store.InitializeStore (boot empty_server) = (Returned (storeService w'), w')
    /\ redisClient (storeService w')
       = Some (redis.NewClient {| redis.Addr := "localhost:6379";
                                  redis.Password := ""; redis.DB := 0 |})
    /\ server w' = server (boot empty_server)
    /\ stdout w'
       = (stdout (boot empty_server)
            ++ [Text (newline +:+ "Redis started successfully: pong message = {PONG}")])%list.
Proof.
  split; [reflexivity|].
  exact (InitializeStore_ok (boot empty_server) eq_refl).
Defined.

(** X6. When Redis does not answer, [InitializeStore] panics with the
    network error in its message and changes nothing: the handle keeps
    the value it had, nil in a process that has just started. *)
Theorem InitializeStore_fatal (w : World) :
  reachable w = false ->
  store.InitializeStore w
  = (Panicked ("Error init Redis " +:+ fault_text w +:+ ":"), w).
Proof.
  intros Hr. apply unreachable_fault in Hr.
  unfold store.InitializeStore, go_bind, on_server, redis.Ping, panic.
  rewrite Hr. now destruct w.
Qed.

Lemma InitializeStore_fatal_witness :
  reachable (boot unreachable_server) = false
  /\ store.InitializeStore (boot unreachable_server)
     = (Panicked ("Error init Redis " +:+ fault_text (boot unreachable_server) +:+ ":"),
        boot unreachable_server).
Proof.
  split; [reflexivity|].
  exact (InitializeStore_fatal (boot unreachable_server) eq_refl).
Defined.

(** X7. On an initialised store whose Redis is unreachable,
    [SaveUrlMapping] and [RetrieveInitialUrl] panic with the network
    error in their messages, and nothing is changed. *)
Theorem store_calls_during_outage
  (shortUrl originalUrl userId : string) (w : World) :
  initialized w = true -> reachable w = false ->
  store.SaveUrlMapping shortUrl originalUrl userId w
  = (Panicked ("failed saving key url | Error " +:+ fault_text w +:+ ":"), w)
  /\ store.RetrieveInitialUrl shortUrl w
     = (Panicked ("failed RetrieveInitialUrl url | Error : " +:+ fault_text w), w).
Proof.
  intros Hi Hr. apply unreachable_fault in Hr. unfold initialized in Hi.
  unfold store.SaveUrlMapping, store.RetrieveInitialUrl, store.load_redisClient,
    go_bind, deref, on_server, redis.Set_, redis.Get, panic.
  destruct (redisClient (storeService w)); [|discriminate].
  rewrite Hr. destruct w. split; reflexivity.
Qed.

(** An initialised process whose Redis has gone away. *)
Lemma store_calls_during_outage_witness :
  let w := {| server := unreachable_server; stdout := stdout ready_world;
              storeService := storeService ready_world |} in
  initialized w = true /\ reachable w = false
  /\ store.SaveUrlMapping "Jsz4k57oAX" guru3d UserId w
     = (Panicked ("failed saving key url | Error " +:+ fault_text w +:+ ":"), w)
  /\ store.RetrieveInitialUrl "Jsz4k57oAX" w
     = (Panicked ("failed RetrieveInitialUrl url | Error : " +:+ fault_text w), w).
Proof.
  intros w. split; [reflexivity|]. split; [reflexivity|].
  exact (store_calls_during_outage "Jsz4k57oAX" guru3d UserId w eq_refl eq_refl).
Defined.

(** X8. [RetrieveInitialUrl] is read-only: whatever its outcome, a
    value, a panic on a miss or an outage, or the nil dereference, the
    store, the output and the handle are as before. *)
Theorem RetrieveInitialUrl_read_only (shortUrl : string) (w : World) :
  snd (store.RetrieveInitialUrl shortUrl w) = w.
Proof. apply RetrieveInitialUrl_world. Qed.

(** ** The store: writes *)

Lemma RetrieveInitialUrl_written (code code' url : string) (d : Z) (w : World) :
  initialized w = true ->
  store.RetrieveInitialUrl code' (elapse d (written code url w))
  = (match redis.lookup_live code' (server (elapse d (written code url w))) with
     | Some e => Returned (redis.value e)
     | None => Panicked "failed RetrieveInitialUrl url | Error : redis: nil"
     end, elapse d (written code url w)).
Proof. intros Hi. apply RetrieveInitialUrl_ok; [exact Hi|reflexivity]. Qed.

(** X9. The last write wins and restarts the six hours: after two
    [SaveUrlMapping] at one code, however far apart, a
    [RetrieveInitialUrl] within six hours of the second returns the
    second long URL. *)
Theorem put_put_get
  (code url1 owner1 url2 owner2 : string) (d1 d2 : Z) (w : World) :
  initialized w = true -> reachable w = true ->
  0 <= d2 <= store.CacheDuration ->
  fst (store.RetrieveInitialUrl code
         (elapse d2
            (snd (store.SaveUrlMapping code url2 owner2
                    (elapse d1
                       (snd (store.SaveUrlMapping code url1 owner1 w)))))))
  = Returned url2.
Proof.
  intros Hi Hr Hd. rewrite (SaveUrlMapping_ok code url1) by assumption.
  cbn [snd]. rewrite (SaveUrlMapping_ok code url2) by (try exact Hi; reflexivity).
  cbn [snd]. rewrite RetrieveInitialUrl_written by exact Hi. cbn [fst].
  unfold redis.lookup_live, redis.live.
  cbn [elapse written server redis.advance redis.keys redis.clock].
  rewrite lookup_insert_eq. cbn [redis.deadline redis.value].
  destruct (_ <=? _) eqn:E; [reflexivity|]. apply Z.leb_gt in E. lia.
Qed.

Lemma put_put_get_witness :
  initialized ready_world = true /\ reachable ready_world = true
  /\ 0 <= 3600 * 10 ^ 9 <= store.CacheDuration
  /\ fst (store.RetrieveInitialUrl "Jsz4k57oAX"
            (elapse (3600 * 10 ^ 9)
               (snd (store.SaveUrlMapping "Jsz4k57oAX" "https://b.example/" "bob"
                       (elapse (7 * 3600 * 10 ^ 9)
                          (snd (store.SaveUrlMapping "Jsz4k57oAX" guru3d UserId
                                  ready_world)))))))
     = Returned "https://b.example/".
Proof.
  split; [reflexivity|]. split; [reflexivity|].
  split; [rewrite CacheDuration_value; lia|].
  apply (put_put_get "Jsz4k57oAX" guru3d UserId "https://b.example/" "bob"
           (7 * 3600 * 10 ^ 9) (3600 * 10 ^ 9) ready_world);
    [reflexivity|reflexivity|rewrite CacheDuration_value; lia].
Defined.






(** X11. A write at one code does not change what
    [RetrieveInitialUrl] gives at any other code, in every state of the
    process and of Redis. *)
Theorem put_get_other (code url owner code' : string) (w : World) :
  code' <> code ->
  fst (store.RetrieveInitialUrl code'
         (snd (store.SaveUrlMapping code url owner w)))
  = fst (store.RetrieveInitialUrl code' w).
Proof.
  intros Hne. rewrite SaveUrlMapping_world.
  destruct (initialized w) eqn:Hi; [|reflexivity].
  destruct (reachable w) eqn:Hr; [|reflexivity]. cbn [andb].
  rewrite (RetrieveInitialUrl_ok code' w) by assumption.
  rewrite (RetrieveInitialUrl_ok code' (written code url w))
    by (try exact Hi; reflexivity).
  cbn [fst]. unfold redis.lookup_live.
  cbn [written server redis.keys redis.clock].
  rewrite lookup_insert_ne by congruence. reflexivity.
Qed.

Lemma put_get_other_witness :
  "bbbbbbbb" <> "aaaaaaaa"
  /\ fst (store.RetrieveInitialUrl "bbbbbbbb"
            (snd (store.SaveUrlMapping "aaaaaaaa" guru3d UserId ready_world)))
     = fst (store.RetrieveInitialUrl "bbbbbbbb" ready_world).
Proof.
  assert (H : "bbbbbbbb" <> "aaaaaaaa") by discriminate.
  split; [exact H|].
  exact (put_get_other "aaaaaaaa" guru3d UserId "bbbbbbbb" ready_world H).
Defined.

(** X12. More than six hours after a [SaveUrlMapping],
    [RetrieveInitialUrl] of that code panics with Redis's nil reply, as
    for a code that was never written. *)
Theorem put_get_expired (code url owner : string) (d : Z) (w : World) :
  initialized w = true -> reachable w = true ->
  store.CacheDuration < d ->
  fst (store.RetrieveInitialUrl code
         (elapse d (snd (store.SaveUrlMapping code url owner w))))
  = Panicked "failed RetrieveInitialUrl url | Error : redis: nil".
Proof.
  intros Hi Hr Hd. rewrite SaveUrlMapping_ok by assumption. cbn [snd].
  rewrite RetrieveInitialUrl_written by exact Hi. cbn [fst].
  unfold redis.lookup_live, redis.live.
  cbn [elapse written server redis.advance redis.keys redis.clock].
  rewrite lookup_insert_eq. cbn [redis.deadline].
  destruct (_ <=? _) eqn:E; [|reflexivity]. apply Z.leb_le in E. lia.
Qed.

Lemma put_get_expired_witness :
  initialized ready_world = true /\ reachable ready_world = true
  /\ store.CacheDuration < 7 * 3600 * 10 ^ 9
  /\ fst (store.RetrieveInitialUrl "Jsz4k57oAX"
            (elapse (7 * 3600 * 10 ^ 9)
               (snd (store.SaveUrlMapping "Jsz4k57oAX" guru3d UserId ready_world))))
     = Panicked "failed RetrieveInitialUrl url | Error : redis: nil".
Proof.
  split; [reflexivity|]. split; [reflexivity|].
  split; [rewrite CacheDuration_value; lia|].
  apply (put_get_expired "Jsz4k57oAX" guru3d UserId (7 * 3600 * 10 ^ 9) ready_world);
    [reflexivity|reflexivity|rewrite CacheDuration_value; lia].
Defined.

(** ** The store: a mapping through other traffic *)

Lemma undisturbed_step (code : string) (w w' : World) :
  undisturbed code w w' ->
  redis.keys (server w') !! code = redis.keys (server w) !! code
  /\ initialized w' = initialized w
  /\ redis.clock (server w) <= redis.clock (server w').
Proof.
  intros H. destruct H as [c' u o w Hne|c' w|u o w|d w Hd|f w].
  - rewrite SaveUrlMapping_world.
    destruct (initialized w && reachable w); [|repeat split; lia].
    unfold initialized. cbn [written server storeService redis.keys redis.clock].
    rewrite lookup_insert_ne by exact Hne. repeat split; lia.
  - rewrite RetrieveInitialUrl_world. repeat split; lia.
  - rewrite GeneratedLink_slice. unfold slice_to.
    destruct (8 <=? _)%nat; cbn [snd]; repeat split; lia.
  - unfold initialized. cbn [elapse server storeService redis.advance
      redis.keys redis.clock]. repeat split; lia.
  - unfold initialized. cbn [server storeService redis.keys redis.clock].
    repeat split; lia.
Qed.

Lemma undisturbed_steps (code : string) (w w' : World) :
  rtc (undisturbed code) w w' ->
  redis.keys (server w') !! code = redis.keys (server w) !! code
  /\ initialized w' = initialized w
  /\ redis.clock (server w) <= redis.clock (server w').
Proof.
  induction 1 as [w|w1 w2 w3 H12 _ (IHk & IHi & IHc)]; [repeat split; lia|].
  destruct (undisturbed_step code w1 w2 H12) as (Hk & Hi & Hc).
  rewrite IHk, IHi, Hk, Hi. repeat split; lia.
Qed.

(** X13. A mapping survives other traffic: after a [SaveUrlMapping],
    through any run of writes at other codes, reads, generator calls,
    passing time and Redis outages, [RetrieveInitialUrl] returns the
    saved long URL, as long as Redis is reachable at that moment and no
    more than six hours have passed since the write. *)
Theorem put_get_through_traffic
  (code url owner : string) (w w' : World) :
  initialized w = true -> reachable w = true ->
  rtc (undisturbed code) (snd (store.SaveUrlMapping code url owner w)) w' ->
  reachable w' = true ->
  redis.clock (server w') <= redis.clock (server w) + store.CacheDuration ->
  store.RetrieveInitialUrl code w' = (Returned url, w').
Proof.
  intros Hi Hr Hrun Hr' Hclock.
  rewrite SaveUrlMapping_ok in Hrun by assumption. cbn [snd] in Hrun.
  apply undisturbed_steps in Hrun as (Hk & Hi' & _).
  change (initialized (written code url w)) with (initialized w) in Hi'.
  cbn [written server redis.keys] in Hk. rewrite lookup_insert_eq in Hk.
  rewrite RetrieveInitialUrl_ok by congruence.
  unfold redis.lookup_live, redis.live. rewrite Hk. cbn [redis.deadline redis.value].
  destruct (_ <=? _) eqn:E; [reflexivity|]. apply Z.leb_gt in E. lia.
Qed.

Lemma put_get_through_traffic_witness :
  let w1 := snd (store.SaveUrlMapping "aaaaaaaa" guru3d UserId ready_world) in
  let w' := elapse (3600 * 10 ^ 9)
              (snd (store.SaveUrlMapping "bbbbbbbb" "https://b.example/" "bob" w1)) in
  initialized ready_world = true /\ reachable ready_world = true
  /\ rtc (undisturbed "aaaaaaaa") w1 w'
  /\ reachable w' = true
  /\ redis.clock (server w')
     <= redis.clock (server ready_world) + store.CacheDuration
  /\ store.RetrieveInitialUrl "aaaaaaaa" w' = (Returned guru3d, w').
Proof.
  intros w1 w'.
  assert (Hrun : rtc (undisturbed "aaaaaaaa") w1 w').
  { eapply rtc_l; [apply und_put with (shortUrl := "bbbbbbbb"); discriminate|].
    eapply rtc_l; [apply (und_elapse "aaaaaaaa" (3600 * 10 ^ 9)); lia|].
    apply rtc_refl. }
  assert (Hclock : redis.clock (server w')
                   <= redis.clock (server ready_world) + store.CacheDuration).
  { apply Z.leb_le. vm_compute. reflexivity. }
  split; [reflexivity|]. split; [reflexivity|]. split; [exact Hrun|].
  split; [reflexivity|]. split; [exact Hclock|].
  exact (put_get_through_traffic "aaaaaaaa" guru3d UserId ready_world w'
           eq_refl eq_refl Hrun eq_refl Hclock).
Defined.

(** X14. The store test passes against any reachable Redis, whatever it
    holds, a stale mapping at the test's own code included: from
    [InitializeStore] on, the retrieved URL equals the initial link. *)
Theorem TestInsertionAndRetrieval_passes (w : World) :
  reachable w = true ->
  exists link,
    fst (store_test.TestInsertionAndRetrieval w) = Returned (link, link).
Proof.
  intros Hr. destruct (InitializeStore_reachable w Hr) as (svc & w1 & Hinit).
  destruct (InitializeStore_returns w svc w1 Hinit) as [Hi Hs].
  assert (Hr1 : reachable w1 = true) by (unfold reachable; now rewrite Hs).
  eexists. unfold store_test.TestInsertionAndRetrieval.
  unfold go_bind at 1. rewrite Hinit.
  unfold go_bind at 1. rewrite SaveUrlMapping_ok by assumption.
  unfold go_bind at 1.
  rewrite RetrieveInitialUrl_ok by (try exact Hi; reflexivity).
  unfold redis.lookup_live, redis.live.
  cbn [written server redis.keys redis.clock].
  rewrite lookup_insert_eq. cbn [redis.deadline redis.value].
  destruct (_ <=? _) eqn:E; [reflexivity|].
  apply Z.leb_gt in E. rewrite CacheDuration_value in E. lia.
Qed.

Lemma TestInsertionAndRetrieval_passes_witness :
  let stale :=
    {| redis.fault := None;
       redis.keys := {["Jsz4k57oAX" := {| redis.value := "https://old.example/";
                                          redis.deadline := None |}]};
       redis.clock := 5 |} in
  reachable (boot stale) = true
  /\ exists link,
       fst (store_test.TestInsertionAndRetrieval (boot stale)) = Returned (link, link).
Proof.
  intros stale. split; [reflexivity|].
  exact (TestInsertionAndRetrieval_passes (boot stale) eq_refl).
Defined.

(** ** The handlers *)

Lemma GeneratedLink_long (initialLink userId : string) (w : World) :
  58 ^ 7 <= Spec.number initialLink userId ->
  shortener.GeneratedLink initialLink userId w
  = (Returned (Spec.generate initialLink userId), w).
Proof.
  intros H. apply encoded_length_threshold in H. apply Nat.leb_le in H.
  rewrite GeneratedLink_slice. unfold slice_to, Spec.generate. now rewrite H.
Qed.

Lemma GeneratedLink_short (initialLink userId : string) (w : World) :
  Spec.number initialLink userId < 58 ^ 7 ->
  shortener.GeneratedLink initialLink userId w
  = (RuntimePanic
       (SliceBoundsOutOfRange 8 (String.length (Spec.encoded initialLink userId))),
     w).
Proof.
  intros H. rewrite GeneratedLink_slice. unfold slice_to.
  destruct (8 <=? String.length (Spec.encoded initialLink userId))%nat eqn:E;
    [|reflexivity].
  apply Nat.leb_le in E. apply encoded_length_threshold in E. lia.
Qed.

Lemma CreateShortUrl_run (longUrl userId : string) (w : World) :
  initialized w = true -> reachable w = true ->
  58 ^ 7 <= Spec.number longUrl userId ->
  handler.CreateShortUrl (creation_request longUrl userId) w
  = (Returned
       (handler.Render
          (gin.JSON 200
             (<["message" := "short url created successfully"]>
                {["short_url" := "http://localhost:9808/"
                                   +:+ Spec.generate longUrl userId]}))
          (creation_request longUrl userId)),
     written (Spec.generate longUrl userId) longUrl w).
Proof.
  intros Hi Hr Hn. unfold handler.CreateShortUrl, creation_request.
  cbn [handler.ShouldBindJSON handler.LongUrl handler.UserId].
  unfold go_bind at 1. rewrite GeneratedLink_long by exact Hn.
  unfold go_bind at 1. rewrite SaveUrlMapping_ok by assumption.
  reflexivity.
Qed.

(** X15. [CreateShortUrl] on a bound request, with the store
    initialised, Redis reachable and an encoding of at least 8
    characters, answers 200 with the message and with [short_url] the
    host followed by the generated code, and has stored the long URL at
    that code for six hours. *)
Theorem CreateShortUrl_ok (longUrl userId : string) (w : World) :
  initialized w = true -> reachable w = true ->
  58 ^ 7 <= Spec.number longUrl userId ->
  exists c' w',
    handler.CreateShortUrl (creation_request longUrl userId) w = (Returned c', w')
    /\ handler.rendered c'
       = Some (gin.JSON http.StatusOK
                 (<["message" := "short url created successfully"]>
                    {["short_url" := "http://localhost:9808/"
                                       +:+ Spec.generate longUrl userId]}))
    /\ redis.keys (server w') !! Spec.generate longUrl userId
       = Some {| redis.value := longUrl;
                 redis.deadline :=
                   Some (redis.clock (server w) + store.CacheDuration) |}
    /\ (forall other, other <> Spec.generate longUrl userId ->
          redis.keys (server w') !! other = redis.keys (server w) !! other).
Proof.
  intros Hi Hr Hn. eexists _, _. split; [now apply CreateShortUrl_run|].
  cbn [handler.Render handler.rendered written server redis.keys].
  split; [reflexivity|]. split; [now rewrite lookup_insert_eq|].
  intros other Hne. now rewrite lookup_insert_ne.
Qed.

Lemma guru3d_number : 58 ^ 7 <= Spec.number guru3d UserId.
Proof. apply Z.leb_le. vm_compute. reflexivity. Qed.

Lemma CreateShortUrl_ok_witness :
  initialized ready_world = true /\ reachable ready_world = true
  /\ 58 ^ 7 <= Spec.number guru3d UserId
  /\ exists c' w',
    handler.CreateShortUrl (creation_request guru3d UserId) ready_world
    = (Returned c', w')
    /\ handler.rendered c'
       = Some (gin.JSON http.StatusOK
                 (<["message" := "short url created successfully"]>
                    {["short_url" := "http://localhost:9808/"
                                       +:+ Spec.generate guru3d UserId]}))
    /\ redis.keys (server w') !! Spec.generate guru3d UserId
       = Some {| redis.value := guru3d;
                 redis.deadline :=
                   Some (redis.clock (server ready_world) + store.CacheDuration) |}
    /\ (forall other, other <> Spec.generate guru3d UserId ->
          redis.keys (server w') !! other = redis.keys (server ready_world) !! other).
Proof.
  split; [reflexivity|]. split; [reflexivity|]. split; [exact guru3d_number|].
  exact (CreateShortUrl_ok guru3d UserId ready_world eq_refl eq_refl guru3d_number).
Defined.

Lemma HandleShortUrlRedirects_run (code : string) (w : World) :
  initialized w = true -> reachable w = true ->
  handler.HandleShortUrlRedirects (redirect_request code) w
  = (match redis.lookup_live code (server w) with
     | Some e =>
         Returned (handler.Render (gin.Redirect 302 (redis.value e))
                     (redirect_request code))
     | None => Panicked "failed RetrieveInitialUrl url | Error : redis: nil"
     end, w).
Proof.
  intros Hi Hr. unfold handler.HandleShortUrlRedirects, go_bind.
  change (gin.Param "shortUrl" (handler.Params (redirect_request code))) with
    (if String.eqb "shortUrl" "shortUrl" then code else "").
  rewrite String.eqb_refl. rewrite RetrieveInitialUrl_ok by assumption.
  destruct (redis.lookup_live code (server w)); reflexivity.
Qed.

(** X16. Create, then follow the link: within six hours of a successful
    [CreateShortUrl], [HandleShortUrlRedirects] on the generated code
    calls [c.Redirect(302, longUrl)] with the long URL of the request,
    byte for byte as it was submitted. *)
Theorem create_then_redirect (longUrl userId : string) (d : Z) (w : World) :
  initialized w = true -> reachable w = true ->
  58 ^ 7 <= Spec.number longUrl userId ->
  0 <= d <= store.CacheDuration ->
  fst (handler.HandleShortUrlRedirects
         (redirect_request (Spec.generate longUrl userId))
         (elapse d
            (snd (handler.CreateShortUrl (creation_request longUrl userId) w))))
  = Returned (handler.Render (gin.Redirect 302 longUrl)
                (redirect_request (Spec.generate longUrl userId))).
Proof.
  intros Hi Hr Hn Hd. rewrite CreateShortUrl_run by assumption. cbn [snd].
  rewrite HandleShortUrlRedirects_run by (try exact Hi; reflexivity). cbn [fst].
  unfold redis.lookup_live, redis.live.
  cbn [elapse written server redis.advance redis.keys redis.clock].
  rewrite lookup_insert_eq. cbn [redis.deadline redis.value].
  destruct (_ <=? _) eqn:E; [reflexivity|]. apply Z.leb_gt in E. lia.
Qed.

Lemma create_then_redirect_witness :
  initialized ready_world = true /\ reachable ready_world = true
  /\ 58 ^ 7 <= Spec.number guru3d UserId
  /\ 0 <= 3600 * 10 ^ 9 <= store.CacheDuration
  /\ fst (handler.HandleShortUrlRedirects
            (redirect_request (Spec.generate guru3d UserId))
            (elapse (3600 * 10 ^ 9)
               (snd (handler.CreateShortUrl (creation_request guru3d UserId)
                       ready_world))))
     = Returned (handler.Render (gin.Redirect 302 guru3d)
                   (redirect_request (Spec.generate guru3d UserId))).
Proof.
  assert (Hd : 0 <= 3600 * 10 ^ 9 <= store.CacheDuration)
    by (rewrite CacheDuration_value; lia).
  split; [reflexivity|]. split; [reflexivity|]. split; [exact guru3d_number|].
  split; [exact Hd|].
  exact (create_then_redirect guru3d UserId (3600 * 10 ^ 9) ready_world
           eq_refl eq_refl guru3d_number Hd).
Defined.




(** X18. When the encoding is shorter than 8 characters,
    [CreateShortUrl] ends in the slice-bounds panic of the generator
    before anything is written: nothing rendered, and the store as it
    was. *)
Theorem CreateShortUrl_short_encoding (longUrl userId : string) (w : World) :
  Spec.number longUrl userId < 58 ^ 7 ->
  handler.CreateShortUrl (creation_request longUrl userId) w
  = (RuntimePanic
       (SliceBoundsOutOfRange 8 (String.length (Spec.encoded longUrl userId))), w).
Proof.
  intros Hn. unfold handler.CreateShortUrl, creation_request.
  cbn [handler.ShouldBindJSON handler.LongUrl handler.UserId].
  unfold go_bind at 1. now rewrite GeneratedLink_short.
Qed.

Lemma CreateShortUrl_short_encoding_witness :
  Spec.number short_link short_user < 58 ^ 7
  /\ handler.CreateShortUrl (creation_request short_link short_user) ready_world
     = (RuntimePanic
          (SliceBoundsOutOfRange 8
             (String.length (Spec.encoded short_link short_user))), ready_world).
Proof.
  assert (H : Spec.number short_link short_user < 58 ^ 7)
    by (rewrite short_number; lia).
  split; [exact H|].
  exact (CreateShortUrl_short_encoding short_link short_user ready_world H).
Defined.

(** X19. [HandleShortUrlRedirects] on a code that is absent or expired
    panics with Redis's nil reply: the handler renders nothing, neither
    a redirect nor a not-found answer, and nothing is changed. *)
Theorem redirect_unknown_code (code : string) (w : World) :
  initialized w = true -> reachable w = true ->
  missing code (server w) ->
  handler.HandleShortUrlRedirects (redirect_request code) w
  = (Panicked "failed RetrieveInitialUrl url | Error : redis: nil", w).
Proof.
  intros Hi Hr Hm. rewrite HandleShortUrlRedirects_run by assumption.
  now rewrite lookup_live_missing.
Qed.

Lemma redirect_unknown_code_witness :
  initialized ready_world = true /\ reachable ready_world = true
  /\ missing "jTa4L57P" (server ready_world)
  /\ handler.HandleShortUrlRedirects (redirect_request "jTa4L57P") ready_world
     = (Panicked "failed RetrieveInitialUrl url | Error : redis: nil", ready_world).
Proof.
  assert (Hm : missing "jTa4L57P" (server ready_world)) by (left; reflexivity).
  split; [reflexivity|]. split; [reflexivity|]. split; [exact Hm|].
  exact (redirect_unknown_code "jTa4L57P" ready_world eq_refl eq_refl Hm).
Defined.

(** X20. The handler reads the path parameter named [shortUrl]. Under
    the route [/:shortUrl] it looks the path segment up; under the route
    [/:short-url] of the walkthrough the parameter has another name, and
    the handler looks up the empty code whatever the path segment is. *)
Theorem redirect_route_parameter
  (segment : string) (c : handler.Context) (w : World) :
  (handler.Params c = [("shortUrl", segment)] ->
   handler.HandleShortUrlRedirects c w
   = (let! initialUrl := store.RetrieveInitialUrl segment in
      go_return (handler.Render (gin.Redirect 302 initialUrl) c)) w)
  /\ (handler.Params c = [("short-url", segment)] ->
      handler.HandleShortUrlRedirects c w
      = (let! initialUrl := store.RetrieveInitialUrl "" in
         go_return (handler.Render (gin.Redirect 302 initialUrl) c)) w).
Proof.
  unfold handler.HandleShortUrlRedirects.
  split; intros ->; reflexivity.
Qed.

Lemma redirect_route_parameter_witness :
  let c1 := redirect_request "jTa4L57P" in
  let c2 := {| handler.ShouldBindJSON := inl "EOF";
               handler.Params := [("short-url", "jTa4L57P")];
               handler.rendered := None |} in
  handler.Params c1 = [("shortUrl", "jTa4L57P")]
  /\ handler.HandleShortUrlRedirects c1 ready_world
     = (let! initialUrl := store.RetrieveInitialUrl "jTa4L57P" in
        go_return (handler.Render (gin.Redirect 302 initialUrl) c1)) ready_world
  /\ handler.Params c2 = [("short-url", "jTa4L57P")]
  /\ handler.HandleShortUrlRedirects c2 ready_world
     = (let! initialUrl := store.RetrieveInitialUrl "" in
        go_return (handler.Render (gin.Redirect 302 initialUrl) c2)) ready_world.
Proof.
  intros c1 c2. split; [reflexivity|].
  split; [exact (proj1 (redirect_route_parameter "jTa4L57P" c1 ready_world) eq_refl)|].
  split; [reflexivity|].
  exact (proj2 (redirect_route_parameter "jTa4L57P" c2 ready_world) eq_refl).
Defined.

(** ** The encoding is the number in base 58 *)

Lemma index_of_symbol (i : Z) :
  0 <= i < 58 ->
  index_of (base58.symbol base58.BitcoinEncoding i) base58.BitcoinEncoding = Some i.
Proof.
  intros Hi. unfold base58.symbol.
  rewrite <- (Z2Nat.id i) at 2 by lia.
  assert (Hk : (Z.to_nat i < 58)%nat) by lia.
  generalize dependent (Z.to_nat i). clear Hi. intros k Hk.
  do 58 (destruct k as [|k]; [reflexivity|]). lia.
Qed.

Lemma numeral_value_snoc (alphabet bs : list byte) (b : byte) :
  numeral_value alphabet (bs ++ [b])
  = match numeral_value alphabet bs, index_of b alphabet with
    | Some a, Some i => Some (a * 58 + i)
    | _, _ => None
    end.
Proof. unfold numeral_value. now rewrite fold_left_app. Qed.

Lemma numeral_value_loop (fuel : nat) :
  forall n, 0 <= n < 2 ^ Z.of_nat fuel ->
    numeral_value base58.BitcoinEncoding
      (rev (base58.divmod_loop base58.BitcoinEncoding fuel n)) = Some n.
Proof.
  induction fuel as [|fuel IH]; intros n Hn.
  - change (2 ^ Z.of_nat 0) with 1 in Hn. assert (n = 0) as -> by lia. reflexivity.
  - cbn [base58.divmod_loop]. destruct (0 <? n) eqn:E.
    + apply Z.ltb_lt in E. cbn [rev]. rewrite numeral_value_snoc.
      rewrite IH.
      * pose proof (Z.mod_pos_bound n 58 ltac:(lia)).
        rewrite index_of_symbol by lia. f_equal.
        pose proof (Z.div_mod n 58 ltac:(lia)). lia.
      * rewrite Nat2Z.inj_succ, Z.pow_succ_r in Hn by lia.
        split; [apply Z.div_pos; lia|]. apply Z.div_lt_upper_bound; lia.
    + apply Z.ltb_ge in E. assert (n = 0) as -> by lia. reflexivity.
Qed.

(** X21. What [base58Encoded] returns on the decimal rendering of a
    [uint64] is that integer written in base 58 with the Bitcoin
    alphabet: read back symbol by symbol, most significant first, the
    returned string denotes the integer. *)
Theorem base58Encoded_numeral (n : Z) (w : World) :
  0 <= n < 2 ^ 64 ->
  exists s,
    shortener.base58Encoded (Bytes.of_string (fmt.Sprintf_d n)) w = (Returned s, w)
    /\ numeral_value base58.BitcoinEncoding (Bytes.of_string s) = Some n.
Proof.
  intros Hn. rewrite base58Encoded_Sprintf by lia.
  eexists. split; [reflexivity|]. rewrite of_to_string.
  destruct (Z.eq_dec n 0) as [->|Hne]; [vm_compute; reflexivity|].
  rewrite Encode_Sprintf_pos by lia. cbn [fst].
  apply numeral_value_loop. split; [lia|]. apply fuel_for_enough. lia.
Qed.

Lemma base58Encoded_numeral_witness :
  0 <= 18291129248657904385 < 2 ^ 64
  /\ exists s,
    shortener.base58Encoded
      (Bytes.of_string (fmt.Sprintf_d 18291129248657904385)) (boot empty_server)
    = (Returned s, boot empty_server)
    /\ numeral_value base58.BitcoinEncoding (Bytes.of_string s)
       = Some 18291129248657904385.
Proof.
  assert (H : 0 <= 18291129248657904385 < 2 ^ 64) by lia.
  split; [exact H|].
  exact (base58Encoded_numeral 18291129248657904385 (boot empty_server) H).
Defined.
